(** * Interview assessment tool and sales dashboard: a shallow embedding

    The development follows [assessment.py] (document importer, question
    bank loader, quiz scorer, results store) and [dashboard.py] (sales
    aggregation).  Python [str] values are lists of Unicode code points,
    spreadsheets are frames of cells, exceptions are an explicit result
    type, and the files on disk are passed around as values. *)

From Stdlib Require Import List ZArith NArith Bool Lia Arith.
From Stdlib Require Import String Ascii Permutation DecimalString Sorted.
From Stdlib Require DecimalPos DecimalZ.
Import ListNotations.

Set Implicit Arguments.

(** ** Python strings *)

(** A Python [str] is a sequence of code points. *)
Definition pystr := list N.

Definition bytes_of_string (s : string) : list N :=
  List.map N_of_ascii (list_ascii_of_string s).

(** UTF-8 decoding, used only to write string literals of the source. *)
Fixpoint utf8_decode (bs : list N) : pystr :=
  match bs with
  | [] => []
  | b :: r =>
      if (b <? 128)%N then b :: utf8_decode r
      else if (b <? 224)%N then
        match r with
        | c1 :: r1 => ((b - 192) * 64 + (c1 - 128))%N :: utf8_decode r1
        | [] => []
        end
      else if (b <? 240)%N then
        match r with
        | c1 :: c2 :: r2 =>
            ((b - 224) * 4096 + (c1 - 128) * 64 + (c2 - 128))%N :: utf8_decode r2
        | _ => []
        end
      else
        match r with
        | c1 :: c2 :: c3 :: r3 =>
            ((b - 240) * 262144 + (c1 - 128) * 4096 + (c2 - 128) * 64 + (c3 - 128))%N
              :: utf8_decode r3
        | _ => []
        end
  end.

(** [u "..."] is the Python string written as the literal. *)
Definition u (s : string) : pystr := utf8_decode (bytes_of_string s).

Fixpoint pystr_eqb (a b : pystr) : bool :=
  match a, b with
  | [], [] => true
  | x :: a', y :: b' => (x =? y)%N && pystr_eqb a' b'
  | _, _ => false
  end.

(** [str.startswith] *)
Fixpoint startswith (p s : pystr) : bool :=
  match p, s with
  | [], _ => true
  | x :: p', y :: s' => (x =? y)%N && startswith p' s'
  | _ :: _, [] => false
  end.

(** [str.isspace] on one code point; the regex class [\s] is the same set. *)
Definition is_space (c : N) : bool :=
  ((9 <=? c) && (c <=? 13) || (28 <=? c) && (c <=? 32)
   || (c =? 133) || (c =? 160) || (c =? 5760)
   || (8192 <=? c) && (c <=? 8202)
   || (c =? 8232) || (c =? 8233) || (c =? 8239) || (c =? 8287)
   || (c =? 12288))%N.

Fixpoint lstrip (s : pystr) : pystr :=
  match s with
  | c :: r => if is_space c then lstrip r else s
  | [] => []
  end.

(** [str.strip()] *)
Definition strip (s : pystr) : pystr := rev (lstrip (rev (lstrip s))).

(** Code points with the Unicode decimal-digit property (category Nd,
    Unicode 14): first code point and length of every run; the value of a
    digit is its offset in the run modulo ten.  This is the regex class
    [\d] and the digits accepted by [int()]. *)
Definition decimal_runs : list (N * N) :=
  [(48, 10); (1632, 10); (1776, 10); (1984, 10); (2406, 10); (2534, 10);
   (2662, 10); (2790, 10); (2918, 10); (3046, 10); (3174, 10); (3302, 10);
   (3430, 10); (3558, 10); (3664, 10); (3792, 10); (3872, 10); (4160, 10);
   (4240, 10); (6112, 10); (6160, 10); (6470, 10); (6608, 10); (6784, 10);
   (6800, 10); (6992, 10); (7088, 10); (7232, 10); (7248, 10); (42528, 10);
   (43216, 10); (43264, 10); (43472, 10); (43504, 10); (43600, 10);
   (44016, 10); (65296, 10); (66720, 10); (68912, 10); (69734, 10);
   (69872, 10); (69942, 10); (70096, 10); (70384, 10); (70736, 10);
   (70864, 10); (71248, 10); (71360, 10); (71472, 10); (71904, 10);
   (72016, 10); (72784, 10); (73040, 10); (73120, 10); (92768, 10);
   (92864, 10); (93008, 10); (120782, 50); (123200, 10); (123632, 10);
   (125264, 10); (130032, 10)]%N.

Fixpoint decimal_in (runs : list (N * N)) (c : N) : option N :=
  match runs with
  | [] => None
  | (start, len) :: r =>
      if ((start <=? c) && (c <? start + len))%N
      then Some ((c - start) mod 10)%N
      else decimal_in r c
  end.

Definition decimal_value (c : N) : option N := decimal_in decimal_runs c.

Definition is_digit (c : N) : bool :=
  match decimal_value c with Some _ => true | None => false end.

(** [int(s)] on a string of decimal digits; [None] is [ValueError]. *)
Fixpoint int_digits (acc : Z) (s : pystr) : option Z :=
  match s with
  | [] => Some acc
  | c :: r =>
      match decimal_value c with
      | Some d => int_digits (acc * 10 + Z.of_N d) r
      | None => None
      end
  end.

Definition py_int (s : pystr) : option Z :=
  match s with
  | [] => None
  | _ => int_digits 0 s
  end.

(** ** Exceptions *)

Inductive exn :=
  IndexError | KeyError | TypeError | ValueError | IOError | AttributeError.

Inductive result (A : Type) :=
| Ok (a : A)
| Raise (e : exn).
Arguments Ok {A} a.
Arguments Raise {A} e.

Definition bind {A B} (r : result A) (k : A -> result B) : result B :=
  match r with
  | Ok a => k a
  | Raise e => Raise e
  end.

Notation "x <- c ;; k" := (bind c (fun x => k))
  (at level 61, c at next level, right associativity).
Notation "' p <- c ;; k" := (bind c (fun x => let p := x in k))
  (at level 61, p pattern, c at next level, right associativity).

(** ** Document importer ([parse_questions_from_doc]) *)

Module Importer.

(** A paragraph of the document: its text and the name of its style
    ([None] when the paragraph has no style). *)
Record paragraph := { para_text : pystr; para_style : option pystr }.

(** The question dictionary built by the importer. *)
Record question := {
  q_ID : Z; q_Bank : pystr; q_Question : pystr;
  q_Option_A : pystr; q_Score_A : Z;
  q_Option_B : pystr; q_Score_B : Z;
  q_Option_C : pystr; q_Score_C : Z;
  q_Option_D : pystr; q_Score_D : Z }.

Definition cp_A : N := 65.
Definition cp_B : N := 66.
Definition cp_C : N := 67.
Definition cp_D : N := 68.
Definition cp_dot : N := 46.          (* .  *)
Definition cp_comma : N := 12289.     (* 、 *)
Definition cp_newline : N := 10.
Definition cp_lparen : N := 40.       (* (  *)
Definition cp_rparen : N := 41.       (* )  *)
Definition cp_flparen : N := 65288.   (* （ *)
Definition cp_frparen : N := 65289.   (* ） *)
Definition cp_fen : N := 20998.       (* 分 *)

(** The character class [[A-D]]. *)
Definition is_letter (c : N) : bool := ((cp_A <=? c) && (c <=? cp_D))%N.
(** The character class [[\.、]]. *)
Definition is_sep (c : N) : bool := ((c =? cp_dot) || (c =? cp_comma))%N.

(** The tuple given to [text.startswith] on line 112. *)
Definition option_prefixes : list pystr :=
  [ [cp_A; cp_dot]; [cp_B; cp_dot]; [cp_C; cp_dot]; [cp_D; cp_dot];
    [cp_A; cp_comma]; [cp_B; cp_comma]; [cp_C; cp_comma]; [cp_D; cp_comma] ].

Definition style_name (p : paragraph) : pystr :=
  match para_style p with Some s => s | None => [] end.

(** Line 112: a level-1 heading, or a text of more than ten characters that
    does not start with an option prefix. *)
Definition is_question (style text : pystr) : bool :=
  startswith (u "Heading 1") style
  || ((10 <? List.length text) && negb (existsb (fun p => startswith p text) option_prefixes)).

(** [re.match(r'^[A-D][\.、]\s*', text)] succeeds exactly when the first two
    characters are a letter and a separator. *)
Definition match_option_prefix (text : pystr) : bool :=
  match text with
  | l :: s :: _ => is_letter l && is_sep s
  | _ => false
  end.

(** Line 134. *)
Definition is_option (style text : pystr) : bool :=
  startswith (u "Heading 2") style || match_option_prefix text.

(** The match object of the regex of line 137: group 1 is the letter, group 2
    the option text, groups 3 to 6 the digits of the four bracket notations. *)
Record re_match := {
  group1 : N; group2 : pystr;
  group3 : option pystr; group4 : option pystr;
  group5 : option pystr; group6 : option pystr }.

(** [match.group(i)]: a group number above the six groups of the pattern
    raises [IndexError]. *)
Definition group (m : re_match) (i : nat) : result (option pystr) :=
  match i with
  | 1 => Ok (Some [group1 m])
  | 2 => Ok (Some (group2 m))
  | 3 => Ok (group3 m)
  | 4 => Ok (group4 m)
  | 5 => Ok (group5 m)
  | 6 => Ok (group6 m)
  | _ => Raise IndexError
  end%nat.

(** Longest prefix of digits, [\d+] taken greedily.  Giving back a digit
    cannot help the match: the next pattern character is never a digit. *)
Fixpoint span_digits (s : pystr) : pystr * pystr :=
  match s with
  | c :: r =>
      if is_digit c then let '(ds, rest) := span_digits r in (c :: ds, rest)
      else ([], s)
  | [] => ([], [])
  end.

(** [\s*$]: the rest of the text is white space. *)
Definition match_ws_end (s : pystr) : bool := forallb is_space s.

(** One bracket notation: opening bracket, digits, optionally 分, closing
    bracket, and then [\s*$].  Returns the digits. *)
Definition match_bracket (open : N) (fen : bool) (close : N) (s : pystr)
  : option pystr :=
  match s with
  | c :: r =>
      if (c =? open)%N then
        match span_digits r with
        | ([], _) => None
        | (ds, rest) =>
            let after_fen :=
              if fen then
                match rest with
                | f :: rest' => if (f =? cp_fen)%N then Some rest' else None
                | [] => None
                end
              else Some rest in
            match after_fen with
            | Some (k :: tail) =>
                if (k =? close)%N && match_ws_end tail then Some ds else None
            | _ => None
            end
        end
      else None
  | [] => None
  end.

(** The optional group [(?:（(\d+)分）|\((\d+)分\)|（(\d+)）|\((\d+)\))?]
    followed by [\s*$]: the alternatives in order, then the empty match.
    Returns groups 3 to 6. *)
Definition match_tail (s : pystr)
  : option (option pystr * option pystr * option pystr * option pystr) :=
  match match_bracket cp_flparen true cp_frparen s with
  | Some ds => Some (Some ds, None, None, None)
  | None =>
  match match_bracket cp_lparen true cp_rparen s with
  | Some ds => Some (None, Some ds, None, None)
  | None =>
  match match_bracket cp_flparen false cp_frparen s with
  | Some ds => Some (None, None, Some ds, None)
  | None =>
  match match_bracket cp_lparen false cp_rparen s with
  | Some ds => Some (None, None, None, Some ds)
  | None => if match_ws_end s then Some (None, None, None, None) else None
  end end end end.

(** The lazy group [(.+?)]: [g] is what the group holds so far (in reverse);
    the rest of the pattern is tried first, and only on failure the group
    takes one more character, which may not be a newline. *)
Fixpoint match_lazy (l : N) (g : pystr) (s : pystr) : option re_match :=
  match match_tail s with
  | Some (g3, g4, g5, g6) =>
      Some {| group1 := l; group2 := rev g;
              group3 := g3; group4 := g4; group5 := g5; group6 := g6 |}
  | None =>
      match s with
      | c :: r => if (c =? cp_newline)%N then None else match_lazy l (c :: g) r
      | [] => None
      end
  end.

Definition match_text (l : N) (s : pystr) : option re_match :=
  match s with
  | c :: r => if (c =? cp_newline)%N then None else match_lazy l [c] r
  | [] => None
  end.

(** [\s*] before the lazy group: greedy, giving characters back when the
    rest fails. *)
Fixpoint match_after_sep (l : N) (s : pystr) : option re_match :=
  match s with
  | c :: r =>
      if is_space c then
        match match_after_sep l r with
        | Some m => Some m
        | None => match_text l s
        end
      else match_text l s
  | [] => None
  end.

(** [re.match] with the pattern of line 137. *)
Definition match_option (text : pystr) : option re_match :=
  match text with
  | l :: s :: r => if is_letter l && is_sep s then match_after_sep l r else None
  | _ => None
  end.

(** Lines 141-149: the loop over [range(3, 8)].  [match.group(i)] is
    evaluated outside the inner [try], so its [IndexError] leaves the loop;
    a [ValueError] of [int] is swallowed and the loop goes on. *)
Fixpoint score_loop (m : re_match) (range : list nat) (score : Z) : result Z :=
  match range with
  | [] => Ok score
  | i :: range' =>
      g <- group m i ;;
      match g with
      | Some (c :: s) =>
          match py_int (c :: s) with
          | Some n => Ok n
          | None => score_loop m range' score
          end
      | _ => score_loop m range' score
      end
  end.

Definition extract_score (m : re_match) : result Z :=
  score_loop m (seq 3 5) 0.

(** Line 118: the fresh dictionary of a question. *)
Definition new_question (n : nat) (bank_name text : pystr) : question :=
  {| q_ID := Z.of_nat n + 1; q_Bank := bank_name; q_Question := text;
     q_Option_A := []; q_Score_A := 0; q_Option_B := []; q_Score_B := 0;
     q_Option_C := []; q_Score_C := 0; q_Option_D := []; q_Score_D := 0 |}.

(** Lines 151-153: the two assignments keyed by the option letter; [None]
    when the letter is not in the list ['A', 'B', 'C', 'D']. *)
Definition set_option (q : question) (letter : N) (text : pystr) (score : Z)
  : option question :=
  if (letter =? cp_A)%N then
    Some {| q_ID := q_ID q; q_Bank := q_Bank q; q_Question := q_Question q;
            q_Option_A := text; q_Score_A := score;
            q_Option_B := q_Option_B q; q_Score_B := q_Score_B q;
            q_Option_C := q_Option_C q; q_Score_C := q_Score_C q;
            q_Option_D := q_Option_D q; q_Score_D := q_Score_D q |}
  else if (letter =? cp_B)%N then
    Some {| q_ID := q_ID q; q_Bank := q_Bank q; q_Question := q_Question q;
            q_Option_A := q_Option_A q; q_Score_A := q_Score_A q;
            q_Option_B := text; q_Score_B := score;
            q_Option_C := q_Option_C q; q_Score_C := q_Score_C q;
            q_Option_D := q_Option_D q; q_Score_D := q_Score_D q |}
  else if (letter =? cp_C)%N then
    Some {| q_ID := q_ID q; q_Bank := q_Bank q; q_Question := q_Question q;
            q_Option_A := q_Option_A q; q_Score_A := q_Score_A q;
            q_Option_B := q_Option_B q; q_Score_B := q_Score_B q;
            q_Option_C := text; q_Score_C := score;
            q_Option_D := q_Option_D q; q_Score_D := q_Score_D q |}
  else if (letter =? cp_D)%N then
    Some {| q_ID := q_ID q; q_Bank := q_Bank q; q_Question := q_Question q;
            q_Option_A := q_Option_A q; q_Score_A := q_Score_A q;
            q_Option_B := q_Option_B q; q_Score_B := q_Score_B q;
            q_Option_C := q_Option_C q; q_Score_C := q_Score_C q;
            q_Option_D := text; q_Score_D := score |}
  else None.

(** The three variables of the loop. *)
Record state := {
  questions : list question;
  current_question : option question;
  option_count : nat }.

(** Lines 114-115 and 157-158: the accumulator is appended when it holds a
    question with at least four counted options. *)
Definition flush (st : state) : list question :=
  match current_question st with
  | Some q => if (4 <=? option_count st)%nat then questions st ++ [q]
              else questions st
  | None => questions st
  end.

(** One iteration of the loop of line 104. *)
Definition step (bank_name : pystr) (st : state) (para : paragraph)
  : result state :=
  let text := strip (para_text para) in
  match text with
  | [] => Ok st
  | _ :: _ =>
      let style := style_name para in
      if is_question style text then
        let qs := flush st in
        Ok {| questions := qs;
              current_question := Some (new_question (List.length qs) bank_name text);
              option_count := 0 |}
      else if is_option style text then
        match current_question st with
        | Some q =>
            match match_option text with
            | Some m =>
                score <- extract_score m ;;
                match set_option q (group1 m) (strip (group2 m)) score with
                | Some q' =>
                    Ok {| questions := questions st;
                          current_question := Some q';
                          option_count := S (option_count st) |}
                | None => Ok st
                end
            | None => Ok st
            end
        | None => Ok st
        end
      else Ok st
  end.

Fixpoint run (bank_name : pystr) (st : state) (paras : list paragraph)
  : result state :=
  match paras with
  | [] => Ok st
  | para :: rest => st' <- step bank_name st para ;; run bank_name st' rest
  end.

Definition initial : state :=
  {| questions := []; current_question := None; option_count := 0 |}.

(** The body of the [try] block, lines 99-160. *)
Definition parse_paragraphs (bank_name : pystr) (paras : list paragraph)
  : result (list question) :=
  st <- run bank_name initial paras ;; Ok (flush st).

(** The document file on disk. *)
Inductive doc_file :=
| DocMissing
| DocCorrupt
| DocReadable (paras : list paragraph).

(** Lines 85-163.  Every exception of the body is caught on line 161 and
    turned into the empty list. *)
Definition parse_questions_from_doc (HAS_DOCX : bool) (doc : doc_file)
  (bank_name : pystr) : list question :=
  if negb HAS_DOCX then []
  else
    match doc with
    | DocMissing => []
    | DocCorrupt => []
    | DocReadable paras =>
        match parse_paragraphs bank_name paras with
        | Ok qs => qs
        | Raise _ => []
        end
    end.

(** *** The blocks of a document, read off the paragraph list

    A block is a question paragraph with the paragraphs that follow it up to
    the next question paragraph. *)

Definition starts_block (para : paragraph) : bool :=
  let text := strip (para_text para) in
  match text with
  | [] => false
  | _ => is_question (style_name para) text
  end.

(** A paragraph of a block that is detected as an option: it is classified
    as an option and the pattern of line 137 matches it. *)
Definition detected_option (para : paragraph) : bool :=
  let text := strip (para_text para) in
  match text with
  | [] => false
  | _ =>
      negb (is_question (style_name para) text)
      && is_option (style_name para) text
      && match match_option text with Some _ => true | None => false end
  end.

Fixpoint split_blocks (paras : list paragraph)
  : list paragraph * list (paragraph * list paragraph) :=
  match paras with
  | [] => ([], [])
  | para :: rest =>
      let '(pre, bs) := split_blocks rest in
      if starts_block para then ([], (para, pre) :: bs) else (para :: pre, bs)
  end.

Definition blocks (paras : list paragraph) : list (paragraph * list paragraph) :=
  snd (split_blocks paras).

Definition detected (body : list paragraph) : nat :=
  List.length (filter detected_option body).

Definition block_title (b : paragraph * list paragraph) : pystr :=
  strip (para_text (fst b)).

Definition complete (b : paragraph * list paragraph) : bool :=
  (4 <=? detected (snd b))%nat.

Definition mk_para (text : string) : paragraph :=
  {| para_text := u text; para_style := Some (u "Normal") |}.

End Importer.

(** ** Spreadsheets *)

(** A cell of a sheet.  Numbers are integers; an empty cell is NaN. *)
Inductive cell :=
| CInt (z : Z)
| CStr (s : pystr)
| CNaN.

Definition cell_eqb (a b : cell) : bool :=
  match a, b with
  | CInt x, CInt y => (x =? y)%Z
  | CStr x, CStr y => pystr_eqb x y
  | CNaN, CNaN => true
  | _, _ => false
  end.

(** [str(z)] for an integer. *)
Definition str_of_Z (z : Z) : pystr :=
  bytes_of_string (NilZero.string_of_int (Z.to_int z)).

(** The text an f-string puts for a cell. *)
Definition format_cell (c : cell) : pystr :=
  match c with
  | CInt z => str_of_Z z
  | CStr s => s
  | CNaN => u "nan"
  end.

(** [a + b] on the values of cells. *)
Definition py_add (a b : cell) : result cell :=
  match a, b with
  | CInt x, CInt y => Ok (CInt (x + y))
  | CInt _, CNaN | CNaN, CInt _ | CNaN, CNaN => Ok CNaN
  | CStr x, CStr y => Ok (CStr (x ++ y))
  | _, _ => Raise TypeError
  end.

(** A Python [dict]: keys in insertion order, one entry per key. *)
Section Dict.
Variables K V : Type.
Variable eqb : K -> K -> bool.

Definition dict := list (K * V).

Fixpoint dict_get (d : dict) (k : K) : option V :=
  match d with
  | [] => None
  | (k', v) :: r => if eqb k' k then Some v else dict_get r k
  end.

(** [d[k] = v]: an existing key keeps its place. *)
Fixpoint dict_set (d : dict) (k : K) (v : V) : dict :=
  match d with
  | [] => [(k, v)]
  | (k', v') :: r =>
      if eqb k' k then (k', v) :: r else (k', v') :: dict_set r k v
  end.

Definition dict_keys (d : dict) : list K := List.map fst d.
Definition dict_values (d : dict) : list V := List.map snd d.
End Dict.

(** A data frame with the default index 0, 1, ...: column labels and, for
    every row, one cell per column. *)
Record DataFrame := { columns : list pystr; rows : list (list cell) }.

(** [pd.DataFrame()] *)
Definition empty_frame : DataFrame := {| columns := []; rows := [] |}.

(** [df.empty] *)
Definition is_empty (df : DataFrame) : bool :=
  match columns df, rows df with
  | [], _ | _, [] => true
  | _, _ => false
  end.

(** [c in df.columns] *)
Definition has_column (df : DataFrame) (c : pystr) : bool :=
  existsb (pystr_eqb c) (columns df).

(** A row seen as a Series: the cell under label [c]. *)
Fixpoint series_lookup (cols : list pystr) (cells : list cell) (c : pystr)
  : option cell :=
  match cols, cells with
  | k :: cols', v :: cells' =>
      if pystr_eqb k c then Some v else series_lookup cols' cells' c
  | _, _ => None
  end.

(** [row[c]] *)
Definition getitem (cols : list pystr) (cells : list cell) (c : pystr)
  : result cell :=
  match series_lookup cols cells c with
  | Some v => Ok v
  | None => Raise KeyError
  end.

(** [row.get(c, default)] *)
Definition row_get (cols : list pystr) (cells : list cell) (c : pystr)
  (default : cell) : cell :=
  match series_lookup cols cells c with
  | Some v => v
  | None => default
  end.

(** [pd.DataFrame(records)] for a list of dictionaries with the same keys:
    the columns are the keys of the first one. *)
Definition frame_of_records (records : list (dict pystr cell)) : DataFrame :=
  match records with
  | [] => empty_frame
  | r :: _ =>
      let cols := dict_keys r in
      {| columns := cols;
         rows := List.map (fun d =>
                   List.map (fun c =>
                     match dict_get pystr_eqb d c with
                     | Some v => v
                     | None => CNaN
                     end) cols) records |}
  end.

(** Union of column labels in order of first appearance. *)
Fixpoint add_columns (acc new : list pystr) : list pystr :=
  match new with
  | [] => acc
  | c :: r =>
      if existsb (pystr_eqb c) acc then add_columns acc r
      else add_columns (acc ++ [c]) r
  end.

(** The rows of [df] laid out under the labels [cols]; NaN where [df] has
    no such column. *)
Definition reindex (cols : list pystr) (df : DataFrame) : list (list cell) :=
  List.map (fun cells =>
    List.map (fun c => row_get (columns df) cells c CNaN) cols) (rows df).

(** [pd.concat(frames, ignore_index=True)] *)
Definition concat (frames : list DataFrame) : DataFrame :=
  let cols := fold_left (fun acc df => add_columns acc (columns df)) frames [] in
  {| columns := cols;
     rows := List.concat (List.map (reindex cols) frames) |}.

(** [df[c] = values]: a new last column (the callers check it is new). *)
Definition assign_column (df : DataFrame) (c : pystr) (values : list cell)
  : DataFrame :=
  {| columns := columns df ++ [c];
     rows := List.map (fun '(cells, v) => cells ++ [v])
               (List.combine (rows df) values) |}.

(** A sheet of a workbook: readable, or damaged. *)
Inductive sheet :=
| SheetCorrupt
| SheetData (df : DataFrame).

(** A workbook file: [None] when the file is missing or cannot be opened,
    otherwise its sheets in file order. *)
Definition workbook := option (list (pystr * sheet)).

(** [pd.ExcelFile(file).sheet_names] *)
Definition sheet_names (wb : workbook) : result (list pystr) :=
  match wb with
  | Some sheets => Ok (List.map fst sheets)
  | None => Raise IOError
  end.

(** [pd.read_excel(file, sheet_name=name)] *)
Definition read_excel (wb : workbook) (name : pystr) : result DataFrame :=
  match wb with
  | Some sheets =>
      match dict_get pystr_eqb sheets name with
      | Some (SheetData df) => Ok df
      | Some SheetCorrupt => Raise IOError
      | None => Raise ValueError
      end
  | None => Raise IOError
  end.

(** ** Question bank loader and writer *)

Module Bank.

(** Line 45. *)
Definition BANK_NAMES : list pystr := [u "题库一"; u "题库二"; u "题库三"].

Definition col_ID := u "ID".
Definition col_Bank := u "Bank".
Definition col_Question := u "Question".
Definition col_Option_A := u "Option_A".
Definition col_Score_A := u "Score_A".
Definition col_Option_B := u "Option_B".
Definition col_Score_B := u "Score_B".
Definition col_Option_C := u "Option_C".
Definition col_Score_C := u "Score_C".
Definition col_Option_D := u "Option_D".
Definition col_Score_D := u "Score_D".

(** The canonical layout of a bank sheet. *)
Definition canonical_columns : list pystr :=
  [col_ID; col_Bank; col_Question; col_Option_A; col_Score_A;
   col_Option_B; col_Score_B; col_Option_C; col_Score_C;
   col_Option_D; col_Score_D].

(** The legacy layout: 题目, 选项1..4, 分值1..4. *)
Definition leg_Question := u "题目".
Definition leg_Option (i : string) := u ("选项" ++ i).
Definition leg_Score (i : string) := u ("分值" ++ i).

(** Lines 289-301: the dictionary built for the row with index [idx]. *)
Definition normalize_row (cols : list pystr) (bank : pystr) (idx : nat)
  (row : list cell) : result (dict pystr cell) :=
  question <- getitem cols row leg_Question ;;
  Ok [ (col_ID, CInt (Z.of_nat idx + 1));
       (col_Bank, CStr bank);
       (col_Question, question);
       (col_Option_A, row_get cols row (leg_Option "1") (CStr []));
       (col_Score_A, row_get cols row (leg_Score "1") (CInt 0));
       (col_Option_B, row_get cols row (leg_Option "2") (CStr []));
       (col_Score_B, row_get cols row (leg_Score "2") (CInt 0));
       (col_Option_C, row_get cols row (leg_Option "3") (CStr []));
       (col_Score_C, row_get cols row (leg_Score "3") (CInt 0));
       (col_Option_D, row_get cols row (leg_Option "4") (CStr []));
       (col_Score_D, row_get cols row (leg_Score "4") (CInt 0)) ].

(** The loop of line 288 over [df.iterrows()]. *)
Fixpoint normalize_rows (cols : list pystr) (bank : pystr) (idx : nat)
  (rs : list (list cell)) : result (list (dict pystr cell)) :=
  match rs with
  | [] => Ok []
  | row :: rest =>
      new_row <- normalize_row cols bank idx row ;;
      new_rows <- normalize_rows cols bank (S idx) rest ;;
      Ok (new_row :: new_rows)
  end.

(** Lines 283-304. *)
Definition normalize_df (df : DataFrame) (bank : pystr) : result DataFrame :=
  if has_column df leg_Question then
    new_rows <- normalize_rows (columns df) bank 0 (rows df) ;;
    Ok (frame_of_records new_rows)
  else Ok df.

(** [range(1, n + 1)] as cells. *)
Definition id_range (n : nat) : list cell :=
  List.map (fun i => CInt (Z.of_nat i)) (seq 1 n).

(** Lines 323-334: one iteration of the loop over the sheets; an exception
    anywhere in the body skips the sheet. *)
Definition load_sheet (wb : workbook) (bank : pystr) : option DataFrame :=
  match (df <- read_excel wb bank ;; normalize_df df bank) with
  | Ok df =>
      if negb (is_empty df) then
        let df1 := if negb (has_column df col_ID)
                   then assign_column df col_ID (id_range (List.length (rows df)))
                   else df in
        let df2 := if negb (has_column df1 col_Bank)
                   then assign_column df1 col_Bank
                          (List.map (fun _ => CStr bank) (rows df1))
                   else df1 in
        Some df2
      else None
  | Raise _ => None
  end.

Fixpoint load_sheets (wb : workbook) (names : list pystr) : list DataFrame :=
  match names with
  | [] => []
  | bank :: rest =>
      match load_sheet wb bank with
      | Some df => df :: load_sheets wb rest
      | None => load_sheets wb rest
      end
  end.

(** Lines 280-337.  [bank_name] is [None] for the default argument; the
    empty string is as false as [None] on line 306. *)
Definition load_questions (wb : workbook) (bank_name : option pystr)
  : DataFrame :=
  match bank_name with
  | Some (c :: s) =>
      match (df <- read_excel wb (c :: s) ;; normalize_df df (c :: s)) with
      | Ok df => df
      | Raise _ => empty_frame
      end
  | _ =>
      let names := match sheet_names wb with
                   | Ok names => names
                   | Raise _ => BANK_NAMES
                   end in
      match load_sheets wb names with
      | [] => empty_frame
      | all_questions => concat all_questions
      end
  end.

(** Lines 343-348. *)
Fixpoint read_existing (wb : workbook) (names : list pystr)
  (existing_data : dict pystr DataFrame) : dict pystr DataFrame :=
  match names with
  | [] => existing_data
  | bank :: rest =>
      let df := match read_excel wb bank with
                | Ok df => df
                | Raise _ => empty_frame
                end in
      read_existing wb rest (dict_set pystr_eqb existing_data bank df)
  end.

(** Lines 340-356: the file is written anew with one sheet per entry of
    [existing_data]. *)
Definition save_questions (wb : workbook) (df : DataFrame) (bank_name : pystr)
  : workbook :=
  let existing_data := read_existing wb BANK_NAMES [] in
  let existing_data := dict_set pystr_eqb existing_data bank_name df in
  Some (List.map (fun '(bank, bank_df) => (bank, SheetData bank_df)) existing_data).

End Bank.

(** ** Results store *)

Module Results.

(** The header of the results table (lines 200 and 363). *)
Definition RESULT_COLUMNS : list pystr :=
  [u "Timestamp"; u "Name"; u "Phone"; u "Total_Score"; u "Details"; u "Bank"].

(** The results file: [None] when it does not exist. *)
Definition results_file := option sheet.

(** Lines 359-363. *)
Definition load_results (file : results_file) : result DataFrame :=
  match file with
  | Some (SheetData df) => Ok df
  | Some SheetCorrupt => Raise IOError
  | None => Ok {| columns := RESULT_COLUMNS; rows := [] |}
  end.

(** Lines 366-370. *)
Definition save_result (file : results_file) (new_row : dict pystr cell)
  : result results_file :=
  df_res <- load_results file ;;
  let df_res := concat [df_res; frame_of_records [new_row]] in
  Ok (Some (SheetData df_res)).

End Results.

(** ** Quiz session and scorer ([candidate_view]) *)

Module Quiz.
Import Bank Results.

(** The value of a radio button. *)
Inductive letter := LA | LB | LC | LD.

Definition letter_str (l : letter) : pystr :=
  match l with LA => u "A" | LB => u "B" | LC => u "C" | LD => u "D" end.

(** [f"Score_{choice}"] *)
Definition score_column (choice : letter) : pystr :=
  (u "Score_" ++ letter_str choice)%list.

(** What [st.session_state] holds for this view. *)
Record session_state := {
  selected_bank_seed : option pystr;
  shuffled_questions : option DataFrame;
  current_bank : option pystr }.

Definition fresh_session : session_state :=
  {| selected_bank_seed := None; shuffled_questions := None;
     current_bank := None |}.

(** What one run of the handler receives from the page and from the
    random number generator. *)
Record inputs := {
  name : pystr;
  phone : pystr;
  choice : nat -> letter;        (* the radio button of the row with index idx *)
  submit : bool;                 (* the button was pressed *)
  bank_draw : nat;               (* the draw of [random.choice] *)
  shuffle_draws : list nat;      (* the draws of [sample] *)
  now : pystr }.                 (* the formatted time *)

Fixpoint remove_nth {A} (i : nat) (l : list A) : list A :=
  match l, i with
  | [], _ => []
  | _ :: r, O => r
  | x :: r, S i' => x :: remove_nth i' r
  end.

(** Drawing without replacement: every draw picks one of the remaining
    rows.  [n] is the number of rows left. *)
Fixpoint draw_all {A} (n : nat) (draws : list nat) (l : list A) : list A :=
  match n with
  | O => []
  | S n' =>
      let i := (hd O draws) mod (List.length l) in
      match nth_error l i with
      | Some x => x :: draw_all n' (tl draws) (remove_nth i l)
      | None => []
      end
  end.

(** [df.sample(frac=1).reset_index(drop=True)]: the rows in a random order
    under the default index. *)
Definition sample_all (draws : list nat) (df : DataFrame) : DataFrame :=
  {| columns := columns df;
     rows := draw_all (List.length (rows df)) draws (rows df) |}.

(** Lines 382-395. *)
Definition select_bank (ss : session_state) (wb : workbook) (draw : nat)
  : session_state :=
  match selected_bank_seed ss with
  | Some _ => ss
  | None =>
      let available_banks := match sheet_names wb with
                             | Ok names => names
                             | Raise _ => BANK_NAMES
                             end in
      let seed := match available_banks with
                  | [] => hd [] BANK_NAMES
                  | b :: _ => nth (draw mod List.length available_banks)
                                available_banks b
                  end in
      {| selected_bank_seed := Some seed;
         shuffled_questions := shuffled_questions ss;
         current_bank := current_bank ss |}
  end.

(** Lines 406-410. *)
Definition pin_order (ss : session_state) (selected_bank : pystr)
  (questions_list : DataFrame) (draws : list nat)
  : result (session_state * DataFrame) :=
  match shuffled_questions ss with
  | None =>
      let shuffled := sample_all draws questions_list in
      Ok ({| selected_bank_seed := selected_bank_seed ss;
             shuffled_questions := Some shuffled;
             current_bank := Some selected_bank |}, shuffled)
  | Some pinned =>
      match current_bank ss with
      | None => Raise AttributeError
      | Some cb =>
          if negb (pystr_eqb cb selected_bank) then
            let shuffled := sample_all draws questions_list in
            Ok ({| selected_bank_seed := selected_bank_seed ss;
                   shuffled_questions := Some shuffled;
                   current_bank := Some selected_bank |}, shuffled)
          else Ok (ss, pinned)
      end
  end.

(** Line 419: [f"{row.get('Bank', '')}_{row['ID']}"] *)
Definition qid_of (cols : list pystr) (row : list cell) : result pystr :=
  id <- getitem cols row col_ID ;;
  Ok (format_cell (row_get cols row col_Bank (CStr [])) ++ u "_" ++ format_cell id)%list.

(** Lines 418-435: one radio button per row; its value goes into [answers]
    under the row's qid. *)
Fixpoint collect_answers (cols : list pystr) (choice : nat -> letter)
  (idx : nat) (rs : list (list cell)) (answers : dict pystr letter)
  : result (dict pystr letter) :=
  match rs with
  | [] => Ok answers
  | row :: rest =>
      qid <- qid_of cols row ;;
      _ <- getitem cols row col_Question ;;
      _ <- getitem cols row col_Option_A ;;
      _ <- getitem cols row col_Option_B ;;
      _ <- getitem cols row col_Option_C ;;
      _ <- getitem cols row col_Option_D ;;
      collect_answers cols choice (S idx) rest
        (dict_set pystr_eqb answers qid (choice idx))
  end.

(** [questions_list.iloc[idx]] *)
Definition iloc (df : DataFrame) (idx : nat) : result (list cell) :=
  match nth_error (rows df) idx with
  | Some row => Ok row
  | None => Raise IndexError
  end.

(** Lines 448-457: the loop over [enumerate(answer_list)]. *)
Fixpoint score_answers (questions_list : DataFrame) (idx : nat)
  (answer_list : list (pystr * letter)) (total_score : cell)
  (bank_scores : dict cell cell) : result (cell * dict cell cell) :=
  match answer_list with
  | [] => Ok (total_score, bank_scores)
  | (qid_key, choice) :: rest =>
      if (idx <? List.length (rows questions_list))%nat then
        row <- iloc questions_list idx ;;
        score <- getitem (columns questions_list) row (score_column choice) ;;
        total_score <- py_add total_score score ;;
        let bank := row_get (columns questions_list) row col_Bank (CStr (u "未知")) in
        let bank_scores :=
          match dict_get cell_eqb bank_scores bank with
          | None => dict_set cell_eqb bank_scores bank (CInt 0)
          | Some _ => bank_scores
          end in
        match dict_get cell_eqb bank_scores bank with
        | Some subtotal =>
            subtotal <- py_add subtotal score ;;
            score_answers questions_list (S idx) rest total_score
              (dict_set cell_eqb bank_scores bank subtotal)
        | None => Raise KeyError
        end
      else score_answers questions_list (S idx) rest total_score bank_scores
  end.

(** [", ".join(keys)]: every key has to be a string. *)
Fixpoint join_keys (keys : list cell) : result pystr :=
  match keys with
  | [] => Ok []
  | [CStr s] => Ok s
  | CStr s :: rest => tail <- join_keys rest ;; Ok (s ++ u ", " ++ tail)%list
  | _ :: _ => Raise TypeError
  end.

(** What the page shows at the end of a run. *)
Inductive view :=
| EmptyBank      (* line 401: the bank is empty *)
| Form           (* the questions, nothing submitted *)
| Warning        (* line 439: name and phone are required *)
| Submitted.     (* line 468 *)

Record outcome := {
  out_session : session_state;
  out_results : results_file;
  out_view : view;
  out_order : option DataFrame }.   (* the questions as presented *)

Section Handler.
(** [str(bank_scores)], the rendering of a dictionary. *)
Variable str_of_dict : dict cell cell -> pystr.

(** Lines 459-466. *)
Definition new_row (inp : inputs) (total_score : cell)
  (bank_scores : dict cell cell) (banks : pystr) : dict pystr cell :=
  [ (u "Timestamp", CStr (now inp));
    (u "Name", CStr (strip (name inp)));
    (u "Phone", CStr (strip (phone inp)));
    (u "Total_Score", total_score);
    (u "Details", CStr (str_of_dict bank_scores));
    (u "Bank", CStr banks) ].

(** Lines 442-467. *)
Definition score_and_save (questions_list : DataFrame)
  (answers : dict pystr letter) (inp : inputs) (file : results_file)
  : result results_file :=
  let answer_list := answers in
  '(total_score, bank_scores) <-
     score_answers questions_list 0 answer_list (CInt 0) [] ;;
  banks <- join_keys (dict_keys bank_scores) ;;
  save_result file (new_row inp total_score bank_scores banks).

(** Lines 381-410: the bank and the question order of the session.  The
    second component is [None] when the bank is empty (line 400). *)
Definition prepare (ss : session_state) (wb : workbook) (inp : inputs)
  : result (session_state * option DataFrame) :=
  let ss := select_bank ss wb (bank_draw inp) in
  match selected_bank_seed ss with
  | None => Raise AttributeError
  | Some selected_bank =>
      let questions_list := load_questions wb (Some selected_bank) in
      if is_empty questions_list then Ok (ss, None)
      else
        '(ss, questions_list) <-
           pin_order ss selected_bank questions_list (shuffle_draws inp) ;;
        Ok (ss, Some questions_list)
  end.

(** Lines 412-469: the form and the submission. *)
Definition form_and_submit (ss : session_state) (questions_list : DataFrame)
  (file : results_file) (inp : inputs) : result outcome :=
  answers <- collect_answers (columns questions_list) (choice inp) 0
               (rows questions_list) [] ;;
  if submit inp then
    match strip (name inp), strip (phone inp) with
    | _ :: _, _ :: _ =>
        file' <- score_and_save questions_list answers inp file ;;
        Ok {| out_session := ss; out_results := file';
              out_view := Submitted; out_order := Some questions_list |}
    | _, _ =>
        Ok {| out_session := ss; out_results := file;
              out_view := Warning; out_order := Some questions_list |}
    end
  else
    Ok {| out_session := ss; out_results := file;
          out_view := Form; out_order := Some questions_list |}.

(** Lines 373-469. *)
Definition candidate_view (ss : session_state) (wb : workbook)
  (file : results_file) (inp : inputs) : result outcome :=
  '(ss, shown) <- prepare ss wb inp ;;
  match shown with
  | None =>
      Ok {| out_session := ss; out_results := file;
            out_view := EmptyBank; out_order := None |}
  | Some questions_list => form_and_submit ss questions_list file inp
  end.
End Handler.

End Quiz.

(** ** Sales dashboard ([dashboard.py]) *)

Module Sales.

(** Integer columns are 64-bit: arithmetic wraps around. *)
Definition wrap64 (z : Z) : Z := ((z + 2 ^ 63) mod 2 ^ 64 - 2 ^ 63)%Z.
Definition add64 (a b : Z) : Z := wrap64 (a + b)%Z.
Definition mul64 (a b : Z) : Z := wrap64 (a * b)%Z.

(** [Series.sum()] on an integer column. *)
Definition sum64 (l : list Z) : Z := fold_left add64 l 0%Z.

(** A row of the sales sheet: 销售日期, 所属部门, 单价, 数量 (integer unit
    price and quantity). *)
Record sale := {
  sale_date : pystr;
  department : pystr;
  unit_price : Z;
  quantity : Z }.

(** Line 22: the derived column 总销售额. *)
Definition revenue (r : sale) : Z := mul64 (unit_price r) (quantity r).

(** [Series.unique().tolist()]: the values in order of first appearance. *)
Fixpoint unique (l : list pystr) : list pystr :=
  match l with
  | [] => []
  | x :: r => x :: filter (fun y => negb (pystr_eqb y x)) (unique r)
  end.

(** Lines 34-49. *)
Definition filtered_df (df : list sale) (selection : list pystr) : list sale :=
  let all_departments := unique (List.map department df) in
  let selected_departments :=
    match selection with
    | [] => all_departments
    | _ => selection
    end in
  filter (fun r => existsb (pystr_eqb (department r)) selected_departments) df.

(** Line 76. *)
Definition total_sales (filtered : list sale) : Z :=
  sum64 (List.map revenue filtered).

(** Line 77. *)
Definition total_orders (filtered : list sale) : nat := List.length filtered.

(** Order of strings: by code points, a proper prefix first. *)
Fixpoint pystr_ltb (a b : pystr) : bool :=
  match a, b with
  | _, [] => false
  | [], _ :: _ => true
  | x :: a', y :: b' => (x <? y)%N || ((x =? y)%N && pystr_ltb a' b')
  end.

(** One row enters the groups, which are kept in key order: its revenue is
    added to the group of its department. *)
Fixpoint add_to_group (k : pystr) (v : Z) (groups : list (pystr * Z))
  : list (pystr * Z) :=
  match groups with
  | [] => [(k, v)]
  | (k', s) :: r =>
      if pystr_eqb k k' then (k', add64 s v) :: r
      else if pystr_ltb k k' then (k, v) :: groups
      else (k', s) :: add_to_group k v r
  end.

(** Line 114: [groupby('所属部门')['总销售额'].sum().reset_index()]. *)
Definition department_sales (filtered : list sale) : list (pystr * Z) :=
  fold_left (fun groups r => add_to_group (department r) (revenue r) groups)
    filtered [].

(** The revenues of one department. *)
Definition revenues_of (d : pystr) (filtered : list sale) : list Z :=
  List.map revenue (filter (fun r => pystr_eqb (department r) d) filtered).

End Sales.

(** ** First run: default banks and [init_db] *)

Module Setup.
Import Importer Bank Results.

(** [df[cols]]: the listed columns in the listed order; a missing column
    is a [KeyError]. *)
Definition select_columns (df : DataFrame) (cols : list pystr)
  : result DataFrame :=
  if forallb (has_column df) cols
  then Ok {| columns := cols; rows := reindex cols df |}
  else Raise KeyError.

(** Lines 206-262: the five template questions. *)
Definition base_question (question a b c d : string) : dict pystr cell :=
  [ (col_Question, CStr (u question));
    (col_Option_A, CStr (u a)); (col_Score_A, CInt 5);
    (col_Option_B, CStr (u b)); (col_Score_B, CInt 3);
    (col_Option_C, CStr (u c)); (col_Score_C, CInt 2);
    (col_Option_D, CStr (u d)); (col_Score_D, CInt 1) ].

Definition base_questions : list (dict pystr cell) :=
  [ base_question "你如何评估并选择合适的技术方案？"
      "调研多种方案并基于指标对比" "使用熟悉的方案，减少尝试"
      "跟随团队已有方案" "直接使用网络上找到的示例";
    base_question "当团队产生分歧时，你的处理方式？"
      "组织复盘，聚焦事实与共识" "请主管拍板"
      "回避争议，先做自己能做的" "保持中立，不参与讨论";
    base_question "面对模糊需求，你会怎么做？"
      "拆解假设，快速验证并迭代" "等待完整需求文档"
      "按类似需求直接复用方案" "暂缓推进，优先其他任务";
    base_question "你如何确保代码质量？"
      "单测+代码评审+持续集成" "主要依赖手工自测"
      "上线后根据反馈修复" "简单跑通即可";
    base_question "遇到跨团队协作阻塞时？"
      "主动拉齐目标与时间表，持续跟进" "等待对方反馈"
      "只完成自己部分" "放缓节奏，降低优先级" ].

(** Lines 266-270: the copy of a template with its id and bank. *)
Definition default_question (bank_name : pystr) (i : nat) : dict pystr cell :=
  let base_q := nth (i mod List.length base_questions) base_questions [] in
  let base_q := dict_set pystr_eqb base_q col_ID (CInt (Z.of_nat i + 1)) in
  dict_set pystr_eqb base_q col_Bank (CStr bank_name).

(** Lines 204-276: the frame written to the sheet of the bank. *)
Definition create_default_questions_for_bank (bank_name : pystr)
  : result DataFrame :=
  let questions := List.map (default_question bank_name) (seq 0 10) in
  select_columns (frame_of_records questions) canonical_columns.

(** The dictionary of an imported question, keys in the order of line 118. *)
Definition question_record (q : question) : dict pystr cell :=
  [ (col_ID, CInt (q_ID q)); (col_Bank, CStr (q_Bank q));
    (col_Question, CStr (q_Question q));
    (col_Option_A, CStr (q_Option_A q)); (col_Score_A, CInt (q_Score_A q));
    (col_Option_B, CStr (q_Option_B q)); (col_Score_B, CInt (q_Score_B q));
    (col_Option_C, CStr (q_Option_C q)); (col_Score_C, CInt (q_Score_C q));
    (col_Option_D, CStr (q_Option_D q)); (col_Score_D, CInt (q_Score_D q)) ].

(** The files the application keeps in its directory.  A questions file
    that exists holds a workbook, which may be unreadable. *)
Record files := {
  questions_doc : doc_file;              (* questions.doc *)
  questions_docx : doc_file;             (* questions.docx *)
  questions_file : option workbook;      (* questions.xlsx *)
  results : results_file }.              (* results.xlsx *)

Definition doc_exists (d : doc_file) : bool :=
  match d with DocMissing => false | _ => true end.

(** Lines 169-171. *)
Definition doc_path (fs : files) : doc_file :=
  if doc_exists (questions_doc fs) then questions_doc fs else questions_docx fs.

(** Lines 177-188: the sheet of one bank, from the document when it yields
    questions and from the templates otherwise. *)
Definition bank_sheet (HAS_DOCX : bool) (doc : doc_file) (bank_name : pystr)
  : result (pystr * sheet) :=
  match parse_questions_from_doc HAS_DOCX doc bank_name with
  | [] =>
      df <- create_default_questions_for_bank bank_name ;;
      Ok (bank_name, SheetData df)
  | questions =>
      df <- select_columns (frame_of_records (List.map question_record questions))
              canonical_columns ;;
      Ok (bank_name, SheetData df)
  end.

Fixpoint write_sheets (sheet_of : pystr -> result (pystr * sheet))
  (names : list pystr) : result (list (pystr * sheet)) :=
  match names with
  | [] => Ok []
  | bank_name :: rest =>
      sh <- sheet_of bank_name ;;
      shs <- write_sheets sheet_of rest ;;
      Ok (sh :: shs)
  end.

(** Lines 166-201. *)
Definition init_db (HAS_DOCX : bool) (fs : files) : result files :=
  let doc := doc_path fs in
  questions' <-
    match questions_file fs with
    | Some wb => Ok (Some wb)
    | None =>
        if doc_exists doc && HAS_DOCX then
          sheets <- write_sheets (bank_sheet HAS_DOCX doc) BANK_NAMES ;;
          Ok (Some (Some sheets))
        else
          sheets <- write_sheets
                      (fun bank_name =>
                         df <- create_default_questions_for_bank bank_name ;;
                         Ok (bank_name, SheetData df)) BANK_NAMES ;;
          Ok (Some (Some sheets))
    end ;;
  let results' :=
    match results fs with
    | Some r => Some r
    | None => Some (SheetData {| columns := RESULT_COLUMNS; rows := [] |})
    end in
  Ok {| questions_doc := questions_doc fs; questions_docx := questions_docx fs;
        questions_file := questions'; results := results' |}.

End Setup.

(** ** Administrator view ([admin_view]) *)

Module Admin.
Import Bank Results.





(** Lines 480-487: the frame handed to the editor. *)
Definition editor_frame (wb : workbook) (selected_bank : pystr) : DataFrame :=
  let df_q := load_questions wb (Some selected_bank) in
  if is_empty df_q then {| columns := canonical_columns; rows := [] |}
  else df_q.



(** The button pressed in a run of the results panel. *)
Inductive click := NoClick | ClickSaveChanges | ClickClear.

(** Lines 551-606.  [flag] is [confirm_clear] of the session ([None] when
    it was never set); [edited_res] is what the editor returns. *)
Definition results_panel (flag : option bool) (file : results_file)
  (edited_res : DataFrame) (pressed : click)
  : result (option bool * results_file) :=
  df_res <- load_results file ;;
  match rows df_res with
  | [] => Ok (flag, file)
  | _ :: _ =>
      match pressed with
      | NoClick => Ok (flag, file)
      | ClickSaveChanges =>
          if negb (List.length (rows edited_res) =? List.length (rows df_res))%nat
          then Ok (flag, Some (SheetData edited_res))
          else Ok (flag, file)
      | ClickClear =>
          match flag with
          | Some true =>
              Ok (Some false,
                  Some (SheetData {| columns := RESULT_COLUMNS; rows := [] |}))
          | _ => Ok (Some true, file)
          end
      end
  end.

(** A sequence of runs in which the editor is left as loaded. *)
Fixpoint press_all (flag : option bool) (file : results_file)
  (presses : list click) : result (option bool * results_file) :=
  match presses with
  | [] => Ok (flag, file)
  | pressed :: rest =>
      df_res <- load_results file ;;
      '(flag', file') <- results_panel flag file df_res pressed ;;
      press_all flag' file' rest
  end.

End Admin.

(** ** Specification-side definitions and sample data *)

(** The sum of a list of integers. *)
Definition zsum (l : list Z) : Z := fold_right Z.add 0%Z l.

Module ImporterSpec.
Import Importer.

(** The document of the example: one question and the four options. *)
Definition example_doc : list paragraph :=
  List.map mk_para
    [ "请问以下哪个方案最适合当前项目？"; "A. 方案一（5分）"; "B. 方案二(3分)";
      "C. 方案三"; "D. 方案四（1）" ]%string.

(** A complete first block followed by a block with an option that has no
    bracketed value. *)
Definition two_block_doc : list paragraph :=
  List.map mk_para
    [ "请问以下哪个方案最适合当前项目？"; "A. 方案一（5分）"; "B. 方案二(3分)";
      "C. 方案三（2分）"; "D. 方案四（1）";
      "团队产生分歧时你会如何处理？"; "A. 组织复盘" ]%string.

Definition titles (qs : list question) : list pystr := List.map q_Question qs.

Definition open_of (st : state) : option (pystr * nat) :=
  match current_question st with
  | Some q => Some (q_Question q, option_count st)
  | None => None
  end.

(** The titles the loop is expected to deliver from a state whose open
    question is [open], read off the blocks of the remaining paragraphs. *)
Definition expected (open : option (pystr * nat)) (paras : list paragraph)
  : list pystr :=
  let '(pre, bs) := split_blocks paras in
  (match open with
   | Some (t, n) => if (4 <=? n + detected pre)%nat then [t] else []
   | None => []
   end ++ List.map block_title (filter complete bs))%list.


(** What the optional group leaves in groups 3 to 6. *)
Inductive tail_groups : option pystr -> option pystr -> option pystr ->
                        option pystr -> option pystr -> Prop :=
| tail_none : tail_groups None None None None None
| tail_3 ds : tail_groups (Some ds) None None None (Some ds)
| tail_4 ds : tail_groups None (Some ds) None None (Some ds)
| tail_5 ds : tail_groups None None (Some ds) None (Some ds)
| tail_6 ds : tail_groups None None None (Some ds) (Some ds).

End ImporterSpec.

Module BankSpec.
Import Bank.

(** The canonical row that stands for the legacy row [lrow] at index [idx]
    of the sheet [bank]: id [idx + 1], the bank name, the question, and for
    every option the text (empty string when the legacy sheet has no such
    column) and the score (zero when the legacy sheet has no such column). *)
Definition canonical_row (cols : list pystr) (bank : pystr) (idx : nat)
  (lrow crow : list cell) : Prop :=
  exists question,
    series_lookup cols lrow leg_Question = Some question /\
    crow =
      [ CInt (Z.of_nat idx + 1); CStr bank; question;
        match series_lookup cols lrow (leg_Option "1") with Some v => v | None => CStr [] end;
        match series_lookup cols lrow (leg_Score "1") with Some v => v | None => CInt 0 end;
        match series_lookup cols lrow (leg_Option "2") with Some v => v | None => CStr [] end;
        match series_lookup cols lrow (leg_Score "2") with Some v => v | None => CInt 0 end;
        match series_lookup cols lrow (leg_Option "3") with Some v => v | None => CStr [] end;
        match series_lookup cols lrow (leg_Score "3") with Some v => v | None => CInt 0 end;
        match series_lookup cols lrow (leg_Option "4") with Some v => v | None => CStr [] end;
        match series_lookup cols lrow (leg_Score "4") with Some v => v | None => CInt 0 end ].

Inductive rows_equivalent (cols : list pystr) (bank : pystr)
  : nat -> list (list cell) -> list (list cell) -> Prop :=
| rows_equivalent_nil idx : rows_equivalent cols bank idx [] []
| rows_equivalent_cons idx lrow lrows crow crows :
    canonical_row cols bank idx lrow crow ->
    rows_equivalent cols bank (S idx) lrows crows ->
    rows_equivalent cols bank idx (lrow :: lrows) (crow :: crows).

(** A sheet in the legacy layout and a sheet in the canonical layout that
    hold the same bank. *)
Definition equivalent (legacy canon : DataFrame) (bank : pystr) : Prop :=
  has_column legacy leg_Question = true /\
  columns canon = canonical_columns /\
  rows_equivalent (columns legacy) bank 0 (rows legacy) (rows canon).


Definition empty_canonical : DataFrame :=
  {| columns := canonical_columns; rows := [] |}.

(** A legacy sheet without the columns of options 3 and 4, and the
    canonical sheet of the same bank. *)
Definition short_legacy : DataFrame :=
  {| columns := [leg_Question; leg_Option "1"; leg_Score "1"; leg_Option "2";
                 leg_Score "2"];
     rows := [ [CStr (u "面对模糊需求，你会怎么做？"); CStr (u "快速验证"); CInt 5;
                CStr (u "等待文档"); CInt 3] ] |}.

Definition short_canonical : DataFrame :=
  {| columns := canonical_columns;
     rows := [ [CInt 1; CStr (u "题库一"); CStr (u "面对模糊需求，你会怎么做？");
                CStr (u "快速验证"); CInt 5; CStr (u "等待文档"); CInt 3;
                CStr []; CInt 0; CStr []; CInt 0] ] |}.

(** The values of a record under its own keys, for the record of line 289. *)
Definition record_values (d : dict pystr cell) : list cell :=
  List.map (fun c => match dict_get pystr_eqb d c with
                     | Some v => v
                     | None => CNaN
                     end) canonical_columns.


(** What [save_questions] reads back for a bank it does not replace. *)
Definition kept (wb : workbook) (bank : pystr) : DataFrame :=
  match read_excel wb bank with
  | Ok df => df
  | Raise _ => empty_frame
  end.

(** A workbook with a sheet outside the three banks and a damaged bank. *)
Definition crowded_workbook : workbook :=
  Some [(u "题库一", SheetData short_canonical); (u "备份", SheetData short_legacy);
        (u "题库二", SheetCorrupt)].

End BankSpec.

Module QuizSpec.
Import Bank Results Quiz.

Definition has_cell (cols : list pystr) (row : list cell) (c : pystr) : bool :=
  match series_lookup cols row c with Some _ => true | None => false end.

Definition int_cell (cols : list pystr) (row : list cell) (c : pystr) : bool :=
  match series_lookup cols row c with Some (CInt _) => true | _ => false end.

Definition bank_cell_ok (cols : list pystr) (row : list cell) : bool :=
  match series_lookup cols row col_Bank with
  | None | Some (CStr _) => true
  | _ => false
  end.

(** A row of questions: id, question and option texts are there, the four
    scores are integers, and the bank, when there is one, is a string. *)
Definition row_ok (cols : list pystr) (row : list cell) : bool :=
  forallb (has_cell cols row)
    [col_ID; col_Question; col_Option_A; col_Option_B; col_Option_C; col_Option_D]
  && forallb (fun l => int_cell cols row (score_column l)) [LA; LB; LC; LD]
  && bank_cell_ok cols row.

Definition question_frame (df : DataFrame) : bool :=
  forallb (row_ok (columns df)) (rows df).







(** A bank of three questions, and a session on it. *)
Definition sample_bank : DataFrame :=
  {| columns := canonical_columns;
     rows :=
       [ [CInt 1; CStr (u "题库一"); CStr (u "你如何评估并选择合适的技术方案？");
          CStr (u "调研"); CInt 5; CStr (u "熟悉"); CInt 3;
          CStr (u "跟随"); CInt 2; CStr (u "示例"); CInt 1];
         [CInt 2; CStr (u "题库一"); CStr (u "当团队产生分歧时，你的处理方式？");
          CStr (u "复盘"); CInt 50; CStr (u "拍板"); CInt 30;
          CStr (u "回避"); CInt 20; CStr (u "中立"); CInt 10];
         [CInt 3; CStr (u "题库一"); CStr (u "面对模糊需求，你会怎么做？");
          CStr (u "验证"); CInt 500; CStr (u "等待"); CInt 300;
          CStr (u "复用"); CInt 200; CStr (u "暂缓"); CInt 100] ] |}.

(** A bank whose two questions carry the same id. *)
Definition twin_bank : DataFrame :=
  {| columns := canonical_columns;
     rows :=
       [ [CInt 1; CStr (u "题库一"); CStr (u "你如何确保代码质量？");
          CStr (u "单测"); CInt 5; CStr (u "自测"); CInt 3;
          CStr (u "反馈"); CInt 2; CStr (u "跑通"); CInt 1];
         [CInt 1; CStr (u "题库一"); CStr (u "遇到跨团队协作阻塞时？");
          CStr (u "跟进"); CInt 50; CStr (u "等待"); CInt 30;
          CStr (u "部分"); CInt 20; CStr (u "放缓"); CInt 10] ] |}.

Definition sample_workbook : workbook := Some [(u "题库一", SheetData sample_bank)].

Definition sample_inputs (name phone : string) : inputs :=
  {| name := u name; phone := u phone;
     choice := fun idx => match idx with 0 => LA | 1 => LB | _ => LC end%nat;
     submit := true; bank_draw := 7; shuffle_draws := [4; 1; 9]%nat;
     now := u "2024-05-01 10:00:00" |}.

Definition sample_order : DataFrame := sample_all [4; 1; 9]%nat sample_bank.

Definition sample_session : session_state :=
  {| selected_bank_seed := Some (u "题库一");
     shuffled_questions := Some sample_order;
     current_bank := Some (u "题库一") |}.

Definition sample_render (d : dict cell cell) : pystr := u "{...}".


(** A results table with one stored submission. *)
Definition stored_results : DataFrame :=
  {| columns := RESULT_COLUMNS;
     rows := [ [CStr (u "2024-04-30 09:00:00"); CStr (u "李雷"); CStr (u "13900000000");
                CInt 35; CStr (u "{...}"); CStr (u "题库二")] ] |}.

(** The ids of the rows of a frame. *)
Definition ids (df : DataFrame) : list (option cell) :=
  List.map (fun row => series_lookup (columns df) row col_ID) (rows df).

End QuizSpec.

Module SalesSpec.
Import Sales.
Local Open Scope Z_scope.



End SalesSpec.

Module OptionTextSpec.
Import Importer.




(** The ids 1, 2, ..., n. *)
Definition dense_ids (n : nat) : list Z :=
  List.map (fun i => Z.of_nat i + 1)%Z (seq 0 n).

(** A document whose options all carry a point value: a question with
    four options, then a question with three. *)
Definition scored_doc : list paragraph :=
  List.map mk_para
    [ "请问以下哪个方案最适合当前项目？"; "A. 方案一（5分）"; "B. 方案二(3分)";
      "C. 方案三（2分）"; "D. 方案四（1）";
      "团队产生分歧时你会如何处理？"; "A. 组织复盘（5分）"; "B. 请主管拍板(3)";
      "C. 回避争议（1分）" ]%string.

(** The question the first block of [scored_doc] is imported as. *)
Definition first_question : question :=
  {| q_ID := 1; q_Bank := u "题库一";
     q_Question := u "请问以下哪个方案最适合当前项目？";
     q_Option_A := u "方案一"; q_Score_A := 5;
     q_Option_B := u "方案二"; q_Score_B := 3;
     q_Option_C := u "方案三"; q_Score_C := 2;
     q_Option_D := u "方案四"; q_Score_D := 1 |}.

(** The text and the score a question holds for an option letter. *)
Definition option_of (q : question) (l : N) : pystr * Z :=
  if (l =? cp_A)%N then (q_Option_A q, q_Score_A q)
  else if (l =? cp_B)%N then (q_Option_B q, q_Score_B q)
  else if (l =? cp_C)%N then (q_Option_C q, q_Score_C q)
  else (q_Option_D q, q_Score_D q).

(** Where the option of a question comes from: it is still as the question
    was created, or it was read from an option paragraph with that
    letter. *)
Definition option_source (paras : list paragraph) (q : question) (l : N) : Prop :=
  option_of q l = ([], 0%Z)
  \/ exists para m n,
       In para paras /\ detected_option para = true
       /\ match_option (strip (para_text para)) = Some m
       /\ group1 m = l /\ extract_score m = Ok n
       /\ option_of q l = (strip (group2 m), n).

(** A question read from the paragraphs [paras] for the bank [bank]. *)
Definition sourced (paras : list paragraph) (bank : pystr) (q : question) : Prop :=
  q_Bank q = bank
  /\ (exists para, In para paras /\ starts_block para = true
                   /\ strip (para_text para) = q_Question q)
  /\ forall l, is_letter l = true -> option_source paras q l.

(** What the loop keeps true of its variables. *)
Definition numbered (bank : pystr) (st : state) : Prop :=
  List.map q_ID (questions st) = dense_ids (List.length (questions st))
  /\ Forall (fun q => q_Bank q = bank) (questions st)
  /\ forall q, current_question st = Some q ->
       q_ID q = (Z.of_nat (List.length (questions st)) + 1)%Z /\ q_Bank q = bank.

End OptionTextSpec.

Module FrameSpec.
Import Bank Results.

(** Every row has one cell per column. *)
Definition rectangular (df : DataFrame) : bool :=
  forallb (fun cells => (List.length cells =? List.length (columns df))%nat)
    (rows df).

(** The cells of a frame under a column, row by row. *)
Definition column_cells (df : DataFrame) (c : pystr) : list (option cell) :=
  List.map (fun cells => series_lookup (columns df) cells c) (rows df).

(** The header of the results table with no row. *)
Definition cleared : results_file :=
  Some (SheetData {| columns := RESULT_COLUMNS; rows := [] |}).


(** An edited bank: two questions, the id column out of order and one
    bank cell left empty. *)
Definition edited_bank : DataFrame :=
  {| columns := canonical_columns;
     rows :=
       [ [CInt 7; CStr (u "题库二"); CStr (u "你如何确保代码质量？");
          CStr (u "单测"); CInt 5; CStr (u "自测"); CInt 3;
          CStr (u "反馈"); CInt 2; CStr (u "跑通"); CInt 1];
         [CNaN; CNaN; CStr (u "遇到跨团队协作阻塞时？");
          CStr (u "跟进"); CInt 5; CStr (u "等待"); CInt 3;
          CStr (u "部分"); CInt 2; CStr (u "放缓"); CInt 1] ] |}.

(** A legacy sheet with two questions. *)
Definition legacy_bank : DataFrame :=
  {| columns := [leg_Question; leg_Option "1"; leg_Score "1"];
     rows := [ [CStr (u "面对模糊需求，你会怎么做？"); CStr (u "快速验证"); CInt 5];
               [CStr (u "你如何确保代码质量？"); CStr (u "单测"); CInt 4] ] |}.

(** The row of an imported question in the canonical layout. *)
Definition question_row (q : Importer.question) : list cell :=
  [ CInt (Importer.q_ID q); CStr (Importer.q_Bank q);
    CStr (Importer.q_Question q);
    CStr (Importer.q_Option_A q); CInt (Importer.q_Score_A q);
    CStr (Importer.q_Option_B q); CInt (Importer.q_Score_B q);
    CStr (Importer.q_Option_C q); CInt (Importer.q_Score_C q);
    CStr (Importer.q_Option_D q); CInt (Importer.q_Score_D q) ].

(** A bank sheet a candidate can be quizzed on: canonical columns, at least
    one question, and in every row the texts, integer scores and a bank. *)
Definition usable_bank (df : DataFrame) : Prop :=
  columns df = canonical_columns
  /\ is_empty df = false
  /\ QuizSpec.question_frame df = true.

(** A directory with nothing but a document of two questions, the second
    with an option that has no bracketed value. *)
Definition first_run_files : Setup.files :=
  {| Setup.questions_doc := Importer.DocMissing;
     Setup.questions_docx := Importer.DocReadable ImporterSpec.two_block_doc;
     Setup.questions_file := None;
     Setup.results := None |}.

(** How often the clear button is pressed in a sequence of runs. *)
Definition clear_presses (presses : list Admin.click) : nat :=
  List.length (filter (fun p => match p with Admin.ClickClear => true | _ => false end)
                 presses).


(** A sheet in the canonical layout with at least one row. *)
Definition canonical_bank (df : DataFrame) : Prop :=
  columns df = canonical_columns /\ rectangular df = true /\ rows df <> [].

(** The workbook whose sheets are the given frames, in that order. *)
Definition workbook_of (sheets : list (pystr * DataFrame)) : workbook :=
  Some (List.map (fun s => (fst s, SheetData (snd s))) sheets).

(** Two banks in the canonical layout. *)
Definition two_banks : list (pystr * DataFrame) :=
  [(u "题库一", BankSpec.short_canonical); (u "题库二", edited_bank)].

(** A workbook whose second bank has a header and no question. *)
Definition thin_workbook : workbook :=
  Some [(u "题库一", SheetData QuizSpec.sample_bank);
        (u "题库二", SheetData {| columns := canonical_columns; rows := [] |})].

End FrameSpec.

(** * Properties *)

Unset Implicit Arguments.

(** ** Strings and results *)

Lemma pystr_eqb_spec (a b : pystr) : reflect (a = b) (pystr_eqb a b).
Proof.
  revert b; induction a as [|x a IH]; intros [|y b]; simpl;
    try (constructor; congruence).
  destruct (N.eqb_spec x y) as [->|Hxy]; simpl.
  - destruct (IH b) as [->|Hab]; constructor; congruence.
  - constructor; congruence.
Qed.

Lemma pystr_eqb_refl (a : pystr) : pystr_eqb a a = true.
Proof. destruct (pystr_eqb_spec a a); congruence. Qed.

Lemma pystr_eqb_eq (a b : pystr) : pystr_eqb a b = true <-> a = b.
Proof. destruct (pystr_eqb_spec a b); split; congruence. Qed.

Lemma pystr_eqb_neq (a b : pystr) : pystr_eqb a b = false <-> a <> b.
Proof. destruct (pystr_eqb_spec a b); split; congruence. Qed.

Lemma bind_ok_inv {A B} (r : result A) (k : A -> result B) (b : B) :
  bind r k = Ok b -> exists a, r = Ok a /\ k a = Ok b.
Proof. destruct r as [a|e]; simpl; [eauto | discriminate]. Qed.

(** ** Document importer *)

Module ImporterFacts.
Import Importer ImporterSpec.

(** A match without a bracketed value: the loop reaches group 7. *)
Lemma extract_score_no_bracket (m : re_match) :
  group3 m = None -> group4 m = None -> group5 m = None -> group6 m = None ->
  extract_score m = Raise IndexError.
Proof.
  intros H3 H4 H5 H6. unfold extract_score. simpl.
  rewrite H3, H4, H5, H6. reflexivity.
Qed.

Lemma int_digits_total (ds : pystr) :
  Forall (fun c => is_digit c = true) ds ->
  forall acc, exists n, int_digits acc ds = Some n.
Proof.
  induction 1 as [|c ds Hc _ IH]; intros acc; simpl.
  - eauto.
  - unfold is_digit in Hc. destruct (decimal_value c); [apply IH | discriminate].
Qed.

Lemma span_digits_digits (s : pystr) :
  Forall (fun c => is_digit c = true) (fst (span_digits s)).
Proof.
  induction s as [|c s IH]; simpl; [constructor|].
  destruct (is_digit c) eqn:Hc; [|constructor].
  destruct (span_digits s) as [ds rest]; simpl in *. constructor; assumption.
Qed.

(** The digits kept by a bracket notation are a numeral. *)
Lemma match_bracket_digits (open : N) (fen : bool) (close : N) (s ds : pystr) :
  match_bracket open fen close s = Some ds ->
  exists c r n, ds = c :: r /\ py_int ds = Some n.
Proof.
  unfold match_bracket. destruct s as [|c s]; [discriminate|].
  destruct (c =? open)%N; [|discriminate].
  pose proof (span_digits_digits s) as Hd.
  destruct (span_digits s) as [[|d ds'] rest]; [discriminate|]. simpl in Hd.
  intros H.
  assert (ds = d :: ds') as ->.
  { destruct fen.
    - destruct rest as [|f rest']; [discriminate|].
      destruct (f =? cp_fen)%N; [|discriminate].
      destruct rest' as [|k tail]; [discriminate|].
      destruct ((k =? close)%N && match_ws_end tail); congruence.
    - destruct rest as [|k tail]; [discriminate|].
      destruct ((k =? close)%N && match_ws_end tail); congruence. }
  destruct (int_digits_total _ Hd 0%Z) as [n Hn].
  exists d, ds', n. split; [reflexivity | exact Hn].
Qed.

Lemma match_tail_groups (s : pystr) g3 g4 g5 g6 :
  match_tail s = Some (g3, g4, g5, g6) ->
  exists found, tail_groups g3 g4 g5 g6 found /\
    forall ds, found = Some ds -> exists c r n, ds = c :: r /\ py_int ds = Some n.
Proof.
  unfold match_tail.
  destruct (match_bracket cp_flparen true cp_frparen s) as [d1|] eqn:H1.
  { intros [= <- <- <- <-]. exists (Some d1). split; [constructor|].
    intros ds [= <-]. eapply match_bracket_digits; eassumption. }
  destruct (match_bracket cp_lparen true cp_rparen s) as [d2|] eqn:H2.
  { intros [= <- <- <- <-]. exists (Some d2). split; [constructor|].
    intros ds [= <-]. eapply match_bracket_digits; eassumption. }
  destruct (match_bracket cp_flparen false cp_frparen s) as [d3|] eqn:H3.
  { intros [= <- <- <- <-]. exists (Some d3). split; [constructor|].
    intros ds [= <-]. eapply match_bracket_digits; eassumption. }
  destruct (match_bracket cp_lparen false cp_rparen s) as [d4|] eqn:H4.
  { intros [= <- <- <- <-]. exists (Some d4). split; [constructor|].
    intros ds [= <-]. eapply match_bracket_digits; eassumption. }
  destruct (match_ws_end s); [|discriminate].
  intros [= <- <- <- <-]. exists None. split; [constructor | discriminate].
Qed.

Lemma match_lazy_groups (l : N) (s g : pystr) (m : re_match) :
  match_lazy l g s = Some m ->
  group1 m = l /\
  exists found, tail_groups (group3 m) (group4 m) (group5 m) (group6 m) found /\
    forall ds, found = Some ds -> exists c r n, ds = c :: r /\ py_int ds = Some n.
Proof.
  revert g. induction s as [|c s IH]; intros g; cbn [match_lazy].
  - destruct (match_tail []) as [[[[g3 g4] g5] g6]|] eqn:Ht; [|discriminate].
    intros [= <-]; simpl. split; [reflexivity|].
    eapply match_tail_groups; eassumption.
  - destruct (match_tail (c :: s)) as [[[[g3 g4] g5] g6]|] eqn:Ht.
    + intros [= <-]; simpl. split; [reflexivity|].
      eapply match_tail_groups; eassumption.
    + destruct (c =? cp_newline)%N; [discriminate | apply IH].
Qed.

Lemma match_option_groups (text : pystr) (m : re_match) :
  match_option text = Some m ->
  is_letter (group1 m) = true /\
  exists found, tail_groups (group3 m) (group4 m) (group5 m) (group6 m) found /\
    forall ds, found = Some ds -> exists c r n, ds = c :: r /\ py_int ds = Some n.
Proof.
  unfold match_option. destruct text as [|l [|sp r]]; try discriminate.
  destruct (is_letter l) eqn:Hl; simpl; [|discriminate].
  destruct (is_sep sp); [|discriminate].
  assert (Htext : forall s, match_text l s = Some m ->
            group1 m = l /\
            exists found, tail_groups (group3 m) (group4 m) (group5 m) (group6 m) found /\
              forall ds, found = Some ds ->
                exists c r n, ds = c :: r /\ py_int ds = Some n).
  { intros [|c s]; cbn [match_text]; [discriminate|].
    destruct (c =? cp_newline)%N; [discriminate | apply match_lazy_groups]. }
  assert (Hsep : forall s, match_after_sep l s = Some m ->
            group1 m = l /\
            exists found, tail_groups (group3 m) (group4 m) (group5 m) (group6 m) found /\
              forall ds, found = Some ds ->
                exists c r n, ds = c :: r /\ py_int ds = Some n).
  { induction s as [|c s IH]; [discriminate|].
    cbn [match_after_sep]. destruct (is_space c).
    - destruct (match_after_sep l s) as [m'|] eqn:Hm'.
      + intros [= ->]. apply IH; reflexivity.
      + apply Htext.
    - apply Htext. }
  intros H. destruct (Hsep _ H) as [-> Hg]. split; assumption.
Qed.


Lemma set_option_title (q q' : question) (l : N) (t : pystr) (sc : Z) :
  set_option q l t sc = Some q' -> q_Question q' = q_Question q.
Proof.
  unfold set_option.
  destruct (l =? cp_A)%N; [intros [= <-]; reflexivity|].
  destruct (l =? cp_B)%N; [intros [= <-]; reflexivity|].
  destruct (l =? cp_C)%N; [intros [= <-]; reflexivity|].
  destruct (l =? cp_D)%N; [intros [= <-]; reflexivity | discriminate].
Qed.

Lemma set_option_letter (q : question) (l : N) (t : pystr) (sc : Z) :
  is_letter l = true -> exists q', set_option q l t sc = Some q'.
Proof.
  unfold is_letter, set_option, cp_A, cp_B, cp_C, cp_D. intros H.
  apply andb_true_iff in H. destruct H as [H1 H2].
  apply N.leb_le in H1. apply N.leb_le in H2.
  destruct (N.eqb_spec l 65); [eauto|].
  destruct (N.eqb_spec l 66); [eauto|].
  destruct (N.eqb_spec l 67); [eauto|].
  destruct (N.eqb_spec l 68); [eauto|]. lia.
Qed.

Lemma titles_flush (st : state) :
  titles (flush st) =
  (titles (questions st) ++
   match open_of st with
   | Some (t, n) => if (4 <=? n)%nat then [t] else []
   | None => []
   end)%list.
Proof.
  unfold flush, open_of, titles. destruct (current_question st) as [q|].
  - destruct (4 <=? option_count st)%nat.
    + rewrite map_app. reflexivity.
    + rewrite app_nil_r. reflexivity.
  - rewrite app_nil_r. reflexivity.
Qed.

(** What one iteration does to the open question and the finished ones,
    when it does not raise. *)
Lemma step_effect (bank : pystr) (st st' : state) (para : paragraph) :
  step bank st para = Ok st' ->
  if starts_block para then
    titles (questions st') = titles (flush st) /\
    open_of st' = Some (block_title (para, []), 0%nat)
  else
    titles (questions st') = titles (questions st) /\
    open_of st' =
      match open_of st with
      | Some (t, n) => Some (t, if detected_option para then S n else n)
      | None => None
      end.
Proof.
  unfold step, starts_block, detected_option, block_title. cbn [fst].
  destruct (strip (para_text para)) as [|c text] eqn:Htext.
  { intros [= <-]. split; [reflexivity|].
    destruct (open_of st) as [[t n]|]; reflexivity. }
  destruct (is_question (style_name para) (c :: text)) eqn:Hq.
  { intros [= <-]. split; reflexivity. }
  cbn [negb andb].
  destruct (is_option (style_name para) (c :: text)) eqn:Ho; cbn [andb].
  2:{ intros [= <-]. split; [reflexivity|].
      destruct (open_of st) as [[t n]|]; reflexivity. }
  unfold open_of.
  destruct (current_question st) as [q|] eqn:Hcur.
  2:{ intros [= <-]. rewrite Hcur. split; reflexivity. }
  destruct (match_option (c :: text)) as [m|] eqn:Hm.
  2:{ intros [= <-]. rewrite Hcur. split; reflexivity. }
  intros H. apply bind_ok_inv in H. destruct H as [score [_ H]].
  destruct (match_option_groups _ _ Hm) as [Hl _].
  destruct (set_option_letter q _ (strip (group2 m)) score Hl) as [q' Hq'].
  rewrite Hq' in H. injection H as <-. cbn [questions current_question option_count].
  rewrite (set_option_title _ _ _ _ _ Hq'). split; reflexivity.
Qed.

(** The loop and the blocks agree: from any state, a run that does not
    raise ends with the finished questions followed by the complete blocks
    of the paragraphs it read. *)
Lemma run_titles (bank : pystr) (paras : list paragraph) :
  forall st st', run bank st paras = Ok st' ->
  titles (flush st') = (titles (questions st) ++ expected (open_of st) paras)%list.
Proof.
  induction paras as [|para rest IH]; intros st st' H.
  - injection H as <-. rewrite titles_flush. unfold expected.
    cbn [split_blocks filter List.map]. rewrite app_nil_r.
    destruct (open_of st) as [[t n]|]; [|reflexivity].
    change (detected []) with 0%nat. rewrite Nat.add_0_r. reflexivity.
  - simpl in H. apply bind_ok_inv in H. destruct H as [st1 [Hstep Hrun]].
    rewrite (IH _ _ Hrun). apply step_effect in Hstep.
    unfold expected. simpl split_blocks.
    destruct (split_blocks rest) as [pre bs].
    destruct (starts_block para).
    + destruct Hstep as [-> ->]. rewrite titles_flush.
      rewrite <- app_assoc. f_equal.
      change (detected []) with 0%nat. cbn [filter Nat.add].
      change (complete (para, pre)) with (4 <=? detected pre)%nat.
      f_equal.
      { destruct (open_of st) as [[t n]|]; [rewrite Nat.add_0_r|]; reflexivity. }
      destruct (4 <=? detected pre)%nat; reflexivity.
    + destruct Hstep as [-> ->]. f_equal. f_equal.
      destruct (open_of st) as [[t n]|]; [|reflexivity].
      unfold detected. simpl filter.
      destruct (detected_option para); simpl List.length;
        [rewrite Nat.add_succ_r|]; reflexivity.
Qed.

(** When the importer does not raise, its output is, in order, the blocks
    with at least four detected options. *)
Lemma parse_paragraphs_blocks (bank : pystr) (paras : list paragraph)
  (qs : list question) :
  parse_paragraphs bank paras = Ok qs ->
  titles qs = List.map block_title (filter complete (blocks paras)).
Proof.
  unfold parse_paragraphs. intros H. apply bind_ok_inv in H.
  destruct H as [st [Hrun [= <-]]].
  rewrite (run_titles _ _ _ _ Hrun). unfold expected, blocks. simpl.
  destruct (split_blocks paras); reflexivity.
Qed.

(** X4.  Whatever the document, a question of the output is a block that
    collected at least four options. *)
Lemma output_only_complete_blocks (has_docx : bool) (doc : doc_file)
  (bank : pystr) (q : question) :
  In q (parse_questions_from_doc has_docx doc bank) ->
  exists paras b,
    doc = DocReadable paras /\ In b (blocks paras) /\
    block_title b = q_Question q /\ (4 <= detected (snd b))%nat.
Proof.
  unfold parse_questions_from_doc.
  destruct has_docx; simpl; [|contradiction].
  destruct doc as [| |paras]; try contradiction.
  destruct (parse_paragraphs bank paras) as [qs|e] eqn:Hp; [|contradiction].
  intros Hin. apply parse_paragraphs_blocks in Hp.
  assert (In (q_Question q) (titles qs)) as Ht by (apply in_map; exact Hin).
  rewrite Hp in Ht. apply in_map_iff in Ht. destruct Ht as [b [Hb Hf]].
  apply filter_In in Hf. destruct Hf as [Hin' Hc].
  exists paras, b. repeat split; try assumption.
  unfold complete in Hc. apply Nat.leb_le in Hc. exact Hc.
Qed.

(** An option paragraph without a bracketed value, met while a question is
    open, makes the iteration raise. *)
Lemma step_option_without_score (bank : pystr) (st : state) (para : paragraph)
  (q : question) (m : re_match) :
  current_question st = Some q ->
  detected_option para = true ->
  match_option (strip (para_text para)) = Some m ->
  group3 m = None -> group4 m = None -> group5 m = None -> group6 m = None ->
  step bank st para = Raise IndexError.
Proof.
  unfold detected_option, step. intros Hcur Hdet Hm H3 H4 H5 H6.
  destruct (strip (para_text para)) as [|c text]; [discriminate|].
  destruct (is_question (style_name para) (c :: text)); [discriminate|].
  simpl in Hdet.
  destruct (is_option (style_name para) (c :: text)); [|discriminate].
  rewrite Hcur, Hm, (extract_score_no_bracket m H3 H4 H5 H6). reflexivity.
Qed.




(** C2.  On the options of the example the importer gives 5, 3 and 1 for
    the three bracketed values, but the option without a bracketed value
    does not get score 0: its score lookup raises [IndexError], and the
    importer returns no question at all for the example document. *)
Theorem example_scores :
  option_map extract_score (match_option (u "A. 方案一（5分）")) = Some (Ok 5%Z)
  /\ option_map extract_score (match_option (u "B. 方案二(3分)")) = Some (Ok 3%Z)
  /\ option_map extract_score (match_option (u "D. 方案四（1）")) = Some (Ok 1%Z)
  /\ option_map extract_score (match_option (u "C. 方案三")) = Some (Raise IndexError)
  /\ parse_paragraphs (u "题库一") example_doc = Raise IndexError
  /\ parse_questions_from_doc true (DocReadable example_doc) (u "题库一") = [].
Proof. repeat split; vm_compute; reflexivity. Qed.

(** C3.  The first block of [two_block_doc] collected exactly four options
    before the second question started, and is not in the output: the
    option without a bracketed value in the second block raises, and the
    importer returns the empty list.  The block of the example, with four
    detected options, is lost in the same way. *)
Theorem complete_block_lost :
  List.map (fun b => detected (snd b)) (blocks two_block_doc) = [4; 1]%nat
  /\ parse_questions_from_doc true (DocReadable two_block_doc) (u "题库一") = []
  /\ List.map (fun b => detected (snd b)) (blocks example_doc) = [4]%nat
  /\ parse_questions_from_doc true (DocReadable example_doc) (u "题库一") = [].
Proof. repeat split; vm_compute; reflexivity. Qed.

End ImporterFacts.

(** ** Question bank loader and writer *)

Module BankFacts.
Import Bank BankSpec.

(** *** Legacy and canonical layouts *)

Lemma normalize_row_record (cols : list pystr) (bank : pystr) (idx : nat)
  (lrow crow : list cell) :
  canonical_row cols bank idx lrow crow ->
  exists d, normalize_row cols bank idx lrow = Ok d /\
            dict_keys d = canonical_columns /\ record_values d = crow.
Proof.
  intros [question [Hq ->]]. unfold normalize_row, getitem, row_get.
  rewrite Hq. cbn [bind]. eexists. split; [reflexivity|].
  generalize (series_lookup cols lrow (leg_Option "1")) (series_lookup cols lrow (leg_Score "1"))
             (series_lookup cols lrow (leg_Option "2")) (series_lookup cols lrow (leg_Score "2"))
             (series_lookup cols lrow (leg_Option "3")) (series_lookup cols lrow (leg_Score "3"))
             (series_lookup cols lrow (leg_Option "4")) (series_lookup cols lrow (leg_Score "4")).
  intros o1 s1 o2 s2 o3 s3 o4 s4. split; vm_compute; reflexivity.
Qed.

Lemma normalize_rows_records (cols : list pystr) (bank : pystr)
  (lrows crows : list (list cell)) (idx : nat) :
  rows_equivalent cols bank idx lrows crows ->
  exists ds, normalize_rows cols bank idx lrows = Ok ds /\
             Forall (fun d => dict_keys d = canonical_columns) ds /\
             List.map record_values ds = crows.
Proof.
  induction 1 as [idx|idx lrow lrows crow crows Hrow _ IH].
  - exists []. repeat split; constructor.
  - destruct (normalize_row_record _ _ _ _ _ Hrow) as [d [Hd [Hk Hv]]].
    destruct IH as [ds [Hds [Hks Hvs]]].
    exists (d :: ds). cbn [normalize_rows]. rewrite Hd. cbn [bind]. rewrite Hds. cbn [bind].
    repeat split; [constructor; assumption|]. cbn [List.map]. congruence.
Qed.

(** A legacy sheet with at least one row is normalized to the equivalent
    canonical sheet. *)
Lemma normalize_legacy (legacy canon : DataFrame) (bank : pystr) :
  equivalent legacy canon bank -> rows legacy <> [] ->
  normalize_df legacy bank = Ok canon.
Proof.
  intros (Hleg & Hcols & Hrows) Hne. unfold normalize_df. rewrite Hleg.
  destruct (normalize_rows_records _ _ _ _ _ Hrows) as [ds [Hds [Hks Hvs]]].
  rewrite Hds. cbn [bind]. f_equal.
  destruct ds as [|d ds].
  - inversion Hrows; subst; try congruence. simpl in Hds.
    match goal with H : _ :: _ = rows legacy |- _ => symmetry in H end.
    match goal with H : rows legacy = _ :: _ |- _ => rewrite H in Hds end.
    simpl in Hds. destruct (normalize_row _ _ _ _); simpl in Hds;
      [destruct (normalize_rows _ _ _ _); simpl in Hds|]; discriminate.
  - unfold frame_of_records. inversion Hks as [|? ? Hk _]; subst.
    rewrite Hk. destruct canon as [ccols crows]. simpl in *. subst. reflexivity.
Qed.

(** A canonical sheet is returned as it is. *)
Lemma normalize_canonical (canon : DataFrame) (bank : pystr) :
  columns canon = canonical_columns -> normalize_df canon bank = Ok canon.
Proof.
  intros H. unfold normalize_df, has_column. rewrite H.
  replace (existsb (pystr_eqb leg_Question) canonical_columns) with false
    by (vm_compute; reflexivity).
  reflexivity.
Qed.






(** *** Read failures *)









(** *** Saving a bank *)

(** C10.  Saving one of the three banks writes a workbook with exactly the
    three fixed sheets, in the fixed order: the saved bank holds the new
    frame, each of the other two what was read from it (the empty frame
    when it could not be read), and a sheet of any other name is gone. *)
Theorem save_rewrites_three_banks (wb : workbook) (df : DataFrame)
  (bank_name : pystr) :
  In bank_name BANK_NAMES ->
  save_questions wb df bank_name
  = Some (List.map (fun b => (b, SheetData (if pystr_eqb b bank_name then df
                                           else kept wb b))) BANK_NAMES)
  /\ sheet_names (save_questions wb df bank_name) = Ok BANK_NAMES
  /\ forall other, ~ In other BANK_NAMES ->
       read_excel (save_questions wb df bank_name) other = Raise ValueError.
Proof.
  intros Hin.
  assert (Hsave : save_questions wb df bank_name
                  = Some (List.map (fun b => (b, SheetData (if pystr_eqb b bank_name then df
                                           else kept wb b))) BANK_NAMES)).
  { unfold kept. destruct Hin as [<-|[<-|[<-|[]]]]; vm_compute; reflexivity. }
  split; [exact Hsave|]. rewrite Hsave. split.
  - unfold sheet_names. rewrite map_map. cbn [fst]. rewrite map_id. reflexivity.
  - intros other Hother. unfold read_excel.
    assert (Hget : forall names, ~ In other names ->
              dict_get pystr_eqb
                (List.map (fun b => (b, SheetData (if pystr_eqb b bank_name then df
                                                   else kept wb b))) names) other = None).
    { induction names as [|b names IH]; intros Hn; [reflexivity|].
      cbn [List.map dict_get]. destruct (pystr_eqb_spec b other) as [->|_].
      - exfalso. apply Hn. left. reflexivity.
      - apply IH. intros H. apply Hn. right. exact H. }
    rewrite (Hget _ Hother). reflexivity.
Qed.

Lemma save_rewrites_three_banks_witness :
  save_questions crowded_workbook empty_canonical (u "题库三")
  = Some [(u "题库一", SheetData short_canonical);
          (u "题库二", SheetData empty_frame);
          (u "题库三", SheetData empty_canonical)]
  /\ read_excel (save_questions crowded_workbook empty_canonical (u "题库三")) (u "备份")
     = Raise ValueError.
Proof.
  destruct (save_rewrites_three_banks crowded_workbook empty_canonical (u "题库三"))
    as (Hsave & _ & Hgone).
  - vm_compute. auto.
  - split.
    + rewrite Hsave. vm_compute. reflexivity.
    + apply Hgone. vm_compute. intuition discriminate.
Defined.

End BankFacts.

(** ** Quiz session and scorer *)

Module QuizFacts.
Import Bank Results Quiz QuizSpec.

(** *** What a well-formed question frame is *)

(** *** The scoring loop *)

(** Beyond the last question nothing is scored. *)
Lemma score_answers_beyond (ql : DataFrame) (answer_list : list (pystr * letter)) :
  forall idx total bank_scores,
  (List.length (rows ql) <= idx)%nat ->
  score_answers ql idx answer_list total bank_scores = Ok (total, bank_scores).
Proof.
  induction answer_list as [|[k c] rest IH]; intros idx total bs Hle; [reflexivity|].
  cbn [score_answers].
  destruct (Nat.ltb_spec idx (List.length (rows ql))); [lia|].
  apply IH. lia.
Qed.

Lemma score_answers_firstn (ql : DataFrame) (answer_list : list (pystr * letter)) :
  forall idx total bank_scores,
  score_answers ql idx answer_list total bank_scores
  = score_answers ql idx (firstn (List.length (rows ql) - idx) answer_list)
      total bank_scores.
Proof.
  induction answer_list as [|[k c] rest IH]; intros idx total bs.
  - rewrite firstn_nil. reflexivity.
  - destruct (Nat.ltb_spec idx (List.length (rows ql))) as [Hlt|Hge].
    + replace (List.length (rows ql) - idx)%nat
        with (S (List.length (rows ql) - S idx)) by lia.
      cbn [firstn score_answers].
      destruct (idx <? List.length (rows ql))%nat; [|apply IH].
      destruct (iloc ql idx) as [row|e]; [|reflexivity]. cbn [bind].
      destruct (getitem (columns ql) row (score_column c)) as [score|e]; [|reflexivity].
      cbn [bind].
      destruct (py_add total score) as [total'|e]; [|reflexivity]. cbn [bind].
      match goal with
      | |- match dict_get cell_eqb ?b ?k with _ => _ end = _ =>
          destruct (dict_get cell_eqb b k) as [sub|]; [|reflexivity]
      end.
      destruct (py_add sub score) as [sub'|e]; [|reflexivity]. cbn [bind].
      apply IH.
    + replace (List.length (rows ql) - idx)%nat with 0%nat by lia.
      cbn [firstn]. rewrite score_answers_beyond by exact Hge. reflexivity.
Qed.

Lemma score_answers_no_index_error (ql : DataFrame)
  (answer_list : list (pystr * letter)) :
  forall idx total bank_scores,
  score_answers ql idx answer_list total bank_scores <> Raise IndexError.
Proof.
  induction answer_list as [|[k c] rest IH]; intros idx total bs; [discriminate|].
  cbn [score_answers].
  destruct (Nat.ltb_spec idx (List.length (rows ql))) as [Hlt|Hge]; [|apply IH].
  unfold iloc. destruct (nth_error (rows ql) idx) as [row|] eqn:Hrow.
  2:{ apply nth_error_None in Hrow. lia. }
  cbn [bind]. unfold getitem.
  destruct (series_lookup (columns ql) row (score_column c)) as [score|];
    [|discriminate].
  cbn [bind].
  destruct (py_add total score) as [total'|e] eqn:Hadd.
  2:{ cbn [bind]. destruct total, score; simpl in Hadd; congruence. }
  cbn [bind].
  match goal with
  | |- match dict_get cell_eqb ?b ?k with _ => _ end <> _ =>
      destruct (dict_get cell_eqb b k) as [sub|]; [|discriminate]
  end.
  destruct (py_add sub score) as [sub'|e] eqn:Hadd'.
  2:{ cbn [bind]. destruct sub, score; simpl in Hadd'; congruence. }
  cbn [bind]. apply IH.
Qed.

(** C9.  Answers beyond the number of loaded questions are ignored: the
    scoring loop gives what it gives on the first [len(questions_list)]
    answers, and it never raises an out-of-range error. *)
Theorem extra_answers_ignored (ql : DataFrame)
  (answer_list : list (pystr * letter)) (total : cell)
  (bank_scores : dict cell cell) :
  score_answers ql 0 answer_list total bank_scores
  = score_answers ql 0 (firstn (List.length (rows ql)) answer_list) total bank_scores
  /\ score_answers ql 0 answer_list total bank_scores <> Raise IndexError
  /\ forall extra,
       (List.length (rows ql) <= List.length answer_list)%nat ->
       score_answers ql 0 (answer_list ++ extra) total bank_scores
       = score_answers ql 0 answer_list total bank_scores.
Proof.
  split; [|split].
  - rewrite score_answers_firstn at 1. rewrite Nat.sub_0_r. reflexivity.
  - apply score_answers_no_index_error.
  - intros extra Hlen.
    rewrite (score_answers_firstn ql (answer_list ++ extra)).
    rewrite (score_answers_firstn ql answer_list). rewrite Nat.sub_0_r.
    rewrite firstn_app.
    replace (List.length (rows ql) - List.length answer_list)%nat with 0%nat by lia.
    cbn [firstn]. rewrite app_nil_r. reflexivity.
Qed.

Lemma extra_answers_ignored_witness :
  score_answers sample_bank 0
    ([(u "题库一_1", LA); (u "题库一_2", LB); (u "题库一_3", LC)]
     ++ [(u "题库一_4", LD); (u "题库一_5", LA)]) (CInt 0) []
  = score_answers sample_bank 0
      [(u "题库一_1", LA); (u "题库一_2", LB); (u "题库一_3", LC)] (CInt 0) [].
Proof.
  apply (extra_answers_ignored sample_bank
           [(u "题库一_1", LA); (u "题库一_2", LB); (u "题库一_3", LC)] (CInt 0) []).
  simpl. lia.
Defined.

(** *** Dictionaries keyed by cells *)


Lemma zsum_app (l1 l2 : list Z) : zsum (l1 ++ l2) = (zsum l1 + zsum l2)%Z.
Proof. induction l1 as [|x l1 IH]; simpl; [reflexivity | rewrite IH; lia]. Qed.







(** *** Well-formed rows *)


Lemma row_ok_bank (cols : list pystr) (row : list cell) (default : pystr) :
  row_ok cols row = true ->
  exists s, row_get cols row col_Bank (CStr default) = CStr s.
Proof.
  unfold row_ok, bank_cell_ok, row_get. intros H.
  apply andb_true_iff in H. destruct H as [_ H].
  destruct (series_lookup cols row col_Bank) as [[z|s|]|]; try discriminate; eauto.
Qed.

Lemma row_ok_display (cols : list pystr) (row : list cell) (c : pystr) :
  row_ok cols row = true ->
  In c [col_ID; col_Question; col_Option_A; col_Option_B; col_Option_C; col_Option_D] ->
  exists v, getitem cols row c = Ok v.
Proof.
  unfold row_ok. intros H Hin.
  apply andb_true_iff in H. destruct H as [H _].
  apply andb_true_iff in H. destruct H as [H _].
  rewrite forallb_forall in H. specialize (H c Hin).
  unfold has_cell in H. unfold getitem.
  destruct (series_lookup cols row c) as [v|]; [eauto | discriminate].
Qed.

(** *** The total and the breakdown *)




(** *** The answers collected from the form *)



Lemma dict_set_fresh {V} (d : dict pystr V) (k : pystr) (v : V) :
  ~ In k (dict_keys d) -> dict_set pystr_eqb d k v = (d ++ [(k, v)])%list.
Proof.
  unfold dict_keys. induction d as [|[k' v'] d IH]; cbn [dict_set List.map fst In app];
    intros Hk; [reflexivity|].
  destruct (pystr_eqb_spec k' k) as [->|_]; [exfalso; auto|].
  rewrite IH by auto. reflexivity.
Qed.

(** When the qids of the rows are pairwise distinct, the form yields one
    answer per question, in the order of the questions. *)
Lemma distinct_qids_answers (cols : list pystr) (choice : nat -> letter)
  (rs : list (list cell)) :
  forall (ks : list pystr) (idx : nat) (answers : dict pystr letter),
  forallb (row_ok cols) rs = true ->
  List.map (qid_of cols) rs = List.map Ok ks ->
  NoDup (dict_keys answers ++ ks) ->
  collect_answers cols choice idx rs answers
  = Ok (answers ++ List.combine ks (List.map choice (seq idx (List.length rs))))%list.
Proof.
  induction rs as [|row rest IH]; intros ks idx answers Hall Hks Hnd.
  - destruct ks; [|discriminate]. cbn. rewrite app_nil_r. reflexivity.
  - destruct ks as [|k ks]; [discriminate|]. cbn [List.map] in Hks.
    injection Hks as Hk Hks.
    cbn [forallb] in Hall. apply andb_true_iff in Hall. destruct Hall as [Hrow Hrest].
    cbn [collect_answers]. rewrite Hk. cbn [bind].
    destruct (row_ok_display cols row col_Question Hrow) as [v1 H1]; [simpl; auto|].
    destruct (row_ok_display cols row col_Option_A Hrow) as [v2 H2]; [simpl; auto|].
    destruct (row_ok_display cols row col_Option_B Hrow) as [v3 H3]; [simpl; auto|].
    destruct (row_ok_display cols row col_Option_C Hrow) as [v4 H4]; [simpl; tauto|].
    destruct (row_ok_display cols row col_Option_D Hrow) as [v5 H5]; [simpl; tauto|].
    rewrite H1, H2, H3, H4, H5. cbn [bind].
    assert (Hfresh : ~ In k (dict_keys answers)).
    { intros Hin. apply NoDup_remove_2 in Hnd. apply Hnd.
      apply in_or_app. left. exact Hin. }
    rewrite dict_set_fresh by exact Hfresh.
    rewrite (IH ks (S idx)); [| exact Hrest | exact Hks |].
    + cbn [List.length seq List.map List.combine]. rewrite <- app_assoc. reflexivity.
    + unfold dict_keys in *. rewrite map_app. cbn [List.map fst].
      rewrite <- app_assoc. cbn [app].
      apply NoDup_remove_1 in Hnd as Hnd1. apply NoDup_remove_2 in Hnd as Hnd2.
      apply NoDup_Add with (a := k) (l := (List.map fst answers ++ ks)%list).
      * apply Add_app.
      * constructor; assumption.
Qed.

(** Two questions with the same id share one entry of [answers]: only one
    score is counted, the one of the first question under the letter chosen
    for the second. *)
Lemma same_id_one_answer :
  collect_answers (columns twin_bank) (fun idx => match idx with 0 => LA | _ => LD end%nat)
    0 (rows twin_bank) []
  = Ok [(u "题库一_1", LD)]
  /\ score_answers twin_bank 0 [(u "题库一_1", LD)] (CInt 0) []
     = Ok (CInt 1, [(CStr (u "题库一"), CInt 1)]).
Proof. split; vm_compute; reflexivity. Qed.

(** *** The row appended to the results *)







(** *** The submission *)

Section Submission.
Variable str_of_dict : dict cell cell -> pystr.




End Submission.



(** *** The question order of a session *)

Lemma remove_nth_perm {A} (l : list A) :
  forall i x, nth_error l i = Some x -> Permutation (x :: remove_nth i l) l.
Proof.
  induction l as [|y l IH]; intros [|i] x H; try discriminate.
  - injection H as ->. reflexivity.
  - cbn [nth_error] in H. cbn [remove_nth].
    rewrite perm_swap. constructor. apply IH. exact H.
Qed.

Lemma remove_nth_length {A} (l : list A) :
  forall i x, nth_error l i = Some x ->
  List.length l = S (List.length (remove_nth i l)).
Proof.
  induction l as [|y l IH]; intros [|i] x H; try discriminate.
  - reflexivity.
  - cbn [nth_error] in H. cbn [remove_nth List.length]. f_equal. eapply IH. exact H.
Qed.

(** Whatever the draws, drawing all the rows gives them all, once each. *)
Lemma draw_all_perm {A} (n : nat) :
  forall (draws : list nat) (l : list A),
  List.length l = n -> Permutation (draw_all n draws l) l.
Proof.
  induction n as [|n IH]; intros draws l Hlen.
  - destruct l; [constructor | discriminate].
  - cbn [draw_all].
    assert (Hi : (hd 0%nat draws mod List.length l < List.length l)%nat)
      by (apply Nat.mod_upper_bound; lia).
    destruct (nth_error l (hd 0%nat draws mod List.length l)) as [x|] eqn:Hx.
    2:{ apply nth_error_None in Hx. lia. }
    pose proof (remove_nth_length l _ _ Hx) as Hl.
    eapply Permutation_trans; [|exact (remove_nth_perm l _ _ Hx)].
    constructor. apply IH. lia.
Qed.

Lemma sample_all_perm (draws : list nat) (df : DataFrame) :
  columns (sample_all draws df) = columns df
  /\ Permutation (rows (sample_all draws df)) (rows df).
Proof. split; [reflexivity | apply draw_all_perm; reflexivity]. Qed.

Lemma select_bank_pinned (ss : session_state) (wb : workbook) (draw : nat)
  (bank : pystr) :
  selected_bank_seed ss = Some bank -> select_bank ss wb draw = ss.
Proof. unfold select_bank. intros ->. reflexivity. Qed.

Lemma select_bank_some (ss : session_state) (wb : workbook) (draw : nat) :
  exists bank, selected_bank_seed (select_bank ss wb draw) = Some bank.
Proof.
  unfold select_bank. destruct (selected_bank_seed ss) as [b|] eqn:E.
  - exists b. exact E.
  - eexists. reflexivity.
Qed.

(** C5.  In a session that has no order yet, the handler presents a
    permutation of the loaded bank (same rows, same multiset of ids), and
    every later run of the handler in that session presents the same order,
    whatever the random draws of the later run. *)
Theorem order_is_pinned_permutation (ss : session_state) (wb : workbook)
  (inp : inputs) (bank : pystr) :
  shuffled_questions ss = None ->
  selected_bank_seed (select_bank ss wb (bank_draw inp)) = Some bank ->
  is_empty (load_questions wb (Some bank)) = false ->
  exists ss1 ql,
    prepare ss wb inp = Ok (ss1, Some ql)
    /\ columns ql = columns (load_questions wb (Some bank))
    /\ Permutation (rows ql) (rows (load_questions wb (Some bank)))
    /\ Permutation (ids ql) (ids (load_questions wb (Some bank)))
    /\ forall wb' inp',
         is_empty (load_questions wb' (Some bank)) = false ->
         prepare ss1 wb' inp' = Ok (ss1, Some ql).
Proof.
  intros Hnone Hbank Hne. unfold prepare at 1. rewrite Hbank, Hne.
  assert (Hsh : shuffled_questions (select_bank ss wb (bank_draw inp)) = None).
  { unfold select_bank. destruct (selected_bank_seed ss); exact Hnone. }
  unfold pin_order. rewrite Hsh. cbn [bind].
  destruct (sample_all_perm (shuffle_draws inp) (load_questions wb (Some bank)))
    as [Hcols Hperm].
  eexists. eexists. split; [reflexivity|]. split; [exact Hcols|].
  split; [exact Hperm|]. split.
  - unfold ids. rewrite Hcols. apply Permutation_map. exact Hperm.
  - intros wb' inp' Hne'. unfold prepare.
    rewrite select_bank_pinned with (bank := bank) by (rewrite Hbank; reflexivity).
    rewrite Hbank. cbn [selected_bank_seed]. rewrite Hne'.
    unfold pin_order. cbn [shuffled_questions current_bank].
    rewrite pystr_eqb_refl. reflexivity.
Qed.

Lemma order_is_pinned_permutation_witness :
  exists ss1 ql,
    prepare fresh_session sample_workbook (sample_inputs "王芳" "13800000000")
      = Ok (ss1, Some ql)
    /\ columns ql = columns (load_questions sample_workbook (Some (u "题库一")))
    /\ Permutation (rows ql) (rows (load_questions sample_workbook (Some (u "题库一"))))
    /\ Permutation (ids ql) (ids (load_questions sample_workbook (Some (u "题库一"))))
    /\ forall wb' inp',
         is_empty (load_questions wb' (Some (u "题库一"))) = false ->
         prepare ss1 wb' inp' = Ok (ss1, Some ql).
Proof.
  apply (order_is_pinned_permutation fresh_session sample_workbook
           (sample_inputs "王芳" "13800000000") (u "题库一")).
  - reflexivity.
  - vm_compute. reflexivity.
  - vm_compute. reflexivity.
Defined.

(** What [candidate_view] presents is the order [prepare] pinned. *)
Lemma candidate_view_order (str_of_dict : dict cell cell -> pystr)
  (ss ss1 : session_state) (wb : workbook) (file : results_file)
  (inp : inputs) (ql : DataFrame) (out : outcome) :
  prepare ss wb inp = Ok (ss1, Some ql) ->
  candidate_view str_of_dict ss wb file inp = Ok out ->
  out_order out = Some ql /\ out_session out = ss1.
Proof.
  intros Hprep. unfold candidate_view. rewrite Hprep. cbn [bind].
  unfold form_and_submit. intros H. apply bind_ok_inv in H.
  destruct H as [answers [_ H]].
  destruct (submit inp).
  - destruct (strip (name inp)); [injection H as <-; split; reflexivity|].
    destruct (strip (phone inp)); [injection H as <-; split; reflexivity|].
    apply bind_ok_inv in H. destruct H as [file' [_ H]].
    injection H as <-; split; reflexivity.
  - injection H as <-; split; reflexivity.
Qed.

End QuizFacts.

(** ** Sales dashboard *)

Module SalesFacts.
Import Sales SalesSpec.
Local Open Scope Z_scope.

Lemma zsum_cons (x : Z) (l : list Z) : zsum (x :: l) = x + zsum l.
Proof. reflexivity. Qed.

Lemma wrap64_add_l (a b : Z) : wrap64 (wrap64 a + b) = wrap64 (a + b).
Proof.
  unfold wrap64. f_equal.
  replace ((a + 2 ^ 63) mod 2 ^ 64 - 2 ^ 63 + b + 2 ^ 63)
    with ((a + 2 ^ 63) mod 2 ^ 64 + b) by lia.
  rewrite Z.add_mod_idemp_l by lia. f_equal. lia.
Qed.

Lemma wrap64_add_r (a b : Z) : wrap64 (a + wrap64 b) = wrap64 (a + b).
Proof.
  replace (a + wrap64 b) with (wrap64 b + a) by lia.
  rewrite wrap64_add_l. f_equal. lia.
Qed.

Lemma wrap64_idem (a : Z) : wrap64 (wrap64 a) = wrap64 a.
Proof.
  replace (wrap64 a) with (wrap64 a + 0) at 1 by lia.
  rewrite wrap64_add_l. f_equal. lia.
Qed.

Lemma fold_add64 (l : list Z) :
  forall a, fold_left add64 l (wrap64 a) = wrap64 (a + zsum l).
Proof.
  induction l as [|x l IH]; intros a; cbn [fold_left].
  - f_equal. cbn. lia.
  - unfold add64 at 2. rewrite wrap64_add_l, IH, zsum_cons. f_equal. lia.
Qed.

(** [Series.sum()] is the sum of the entries, wrapped once. *)
Lemma sum64_wrap (l : list Z) : sum64 l = wrap64 (zsum l).
Proof.
  unfold sum64. change 0 with (wrap64 0) at 1. rewrite fold_add64. f_equal.
Qed.

Lemma sum64_snoc (l : list Z) (v : Z) : sum64 (l ++ [v]) = add64 (sum64 l) v.
Proof. unfold sum64. rewrite fold_left_app. reflexivity. Qed.

Lemma revenue_wrapped (r : sale) : wrap64 (revenue r) = revenue r.
Proof. unfold revenue, mul64. apply wrap64_idem. Qed.

(** One more row adds its revenue to the sum of the group values. *)
Lemma add_to_group_sum (k : pystr) (v : Z) (groups : list (pystr * Z)) :
  wrap64 (zsum (List.map snd (add_to_group k v groups)))
  = wrap64 (zsum (List.map snd groups) + v).
Proof.
  induction groups as [|[k' s] groups IH]; cbn [add_to_group].
  - cbn. f_equal. lia.
  - destruct (pystr_eqb k k').
    + cbn [List.map snd]. rewrite !zsum_cons. unfold add64.
      rewrite wrap64_add_l. f_equal. lia.
    + destruct (pystr_ltb k k').
      * cbn [List.map snd]. rewrite !zsum_cons. f_equal. lia.
      * cbn [List.map snd]. rewrite !zsum_cons.
        rewrite <- wrap64_add_r, IH, wrap64_add_r. f_equal. lia.
Qed.

Lemma fold_groups_sum (filtered : list sale) :
  forall groups,
  wrap64 (zsum (List.map snd
            (fold_left (fun gs r => add_to_group (department r) (revenue r) gs)
               filtered groups)))
  = wrap64 (zsum (List.map snd groups) + zsum (List.map revenue filtered)).
Proof.
  induction filtered as [|r rest IH]; intros groups; cbn [fold_left List.map].
  - f_equal. cbn. lia.
  - rewrite IH, zsum_cons.
    rewrite <- wrap64_add_l, add_to_group_sum, wrap64_add_l. f_equal. lia.
Qed.

(** Grouping and then summing is summing: the values of the groups add up
    to the total sales, for any filtered set. *)
Lemma groups_sum_to_total (filtered : list sale) :
  sum64 (List.map snd (department_sales filtered)) = total_sales filtered.
Proof.
  unfold total_sales, department_sales. rewrite !sum64_wrap.
  rewrite fold_groups_sum. f_equal.
Qed.

(** *** The order of keys *)

Lemma pystr_ltb_asym (a : pystr) :
  forall b, pystr_ltb a b = true -> pystr_ltb b a = false.
Proof.
  induction a as [|x a IH]; intros [|y b]; cbn [pystr_ltb]; try congruence.
  intros H. apply orb_true_iff in H. apply orb_false_iff.
  destruct H as [H|H].
  - apply N.ltb_lt in H. split; [apply N.ltb_ge; lia|].
    apply andb_false_iff. left. apply N.eqb_neq. lia.
  - apply andb_true_iff in H. destruct H as [He Hl]. apply N.eqb_eq in He. subst.
    split; [apply N.ltb_irrefl|]. rewrite N.eqb_refl. cbn [andb]. apply IH. exact Hl.
Qed.

Lemma pystr_ltb_neq (a b : pystr) : pystr_ltb a b = true -> pystr_eqb a b = false.
Proof.
  intros H. apply pystr_eqb_neq. intros ->.
  pose proof (pystr_ltb_asym b b H). congruence.
Qed.

Lemma pystr_ltb_total (a : pystr) :
  forall b, a <> b -> pystr_ltb a b = true \/ pystr_ltb b a = true.
Proof.
  induction a as [|x a IH]; intros [|y b] Hne; cbn [pystr_ltb]; try congruence; auto.
  destruct (N.lt_trichotomy x y) as [H|[H|H]].
  - left. apply orb_true_iff. left. apply N.ltb_lt. exact H.
  - subst. assert (a <> b) as Hab by congruence.
    rewrite N.ltb_irrefl, N.eqb_refl. cbn [orb andb]. apply IH. exact Hab.
  - right. apply orb_true_iff. left. apply N.ltb_lt. exact H.
Qed.

(** *** Two departments *)

Lemma department_sales_snoc (filtered : list sale) (r : sale) :
  department_sales (filtered ++ [r])
  = add_to_group (department r) (revenue r) (department_sales filtered).
Proof. unfold department_sales. rewrite fold_left_app. reflexivity. Qed.

Lemma revenues_of_snoc (d : pystr) (filtered : list sale) (r : sale) :
  revenues_of d (filtered ++ [r])
  = (revenues_of d filtered
     ++ if pystr_eqb (department r) d then [revenue r] else [])%list.
Proof.
  unfold revenues_of. rewrite filter_app, map_app. cbn [filter].
  destruct (pystr_eqb (department r) d); reflexivity.
Qed.




Lemma add64_first (r : sale) : add64 (sum64 []) (revenue r) = revenue r.
Proof. unfold add64, sum64. cbn [fold_left]. rewrite Z.add_0_l. apply revenue_wrapped. Qed.





End SalesFacts.

(** ** Option texts and the ids of imported questions *)

Module OptionTextFacts.
Import Importer ImporterSpec OptionTextSpec.












(** *** Ids and bank of the imported questions *)

Lemma set_option_id_bank (q q' : question) (l : N) (t : pystr) (sc : Z) :
  set_option q l t sc = Some q' -> q_ID q' = q_ID q /\ q_Bank q' = q_Bank q.
Proof.
  unfold set_option.
  destruct (l =? cp_A)%N; [intros [= <-]; split; reflexivity|].
  destruct (l =? cp_B)%N; [intros [= <-]; split; reflexivity|].
  destruct (l =? cp_C)%N; [intros [= <-]; split; reflexivity|].
  destruct (l =? cp_D)%N; [intros [= <-]; split; reflexivity | discriminate].
Qed.

Lemma dense_ids_succ (n : nat) :
  dense_ids (S n) = (dense_ids n ++ [Z.of_nat n + 1]%Z)%list.
Proof. unfold dense_ids. rewrite seq_S, map_app. reflexivity. Qed.

Lemma flush_numbered (bank : pystr) (st : state) :
  numbered bank st ->
  List.map q_ID (flush st) = dense_ids (List.length (flush st))
  /\ Forall (fun q => q_Bank q = bank) (flush st).
Proof.
  intros (Hids & Hbank & Hcur). unfold flush.
  destruct (current_question st) as [q|]; [|split; assumption].
  destruct (4 <=? option_count st)%nat; [|split; assumption].
  destruct (Hcur q eq_refl) as [Hid Hb]. split.
  - rewrite map_app, length_app. cbn [List.map List.length].
    rewrite Nat.add_1_r, dense_ids_succ, Hids, Hid. reflexivity.
  - apply Forall_app. split; [exact Hbank | constructor; [exact Hb | constructor]].
Qed.

Lemma step_numbered (bank : pystr) (st st' : state) (para : paragraph) :
  numbered bank st -> step bank st para = Ok st' -> numbered bank st'.
Proof.
  intros Hnum. unfold step.
  destruct (strip (para_text para)) as [|c text]; [intros [= <-]; exact Hnum|].
  destruct (is_question (style_name para) (c :: text)).
  { intros [= <-]. destruct (flush_numbered bank st Hnum) as [Hids Hbank].
    split; [|split]; cbn [questions current_question]; try assumption.
    intros q [= <-]. split; reflexivity. }
  destruct (is_option (style_name para) (c :: text)); [|intros [= <-]; exact Hnum].
  destruct (current_question st) as [q|] eqn:Hcur; [|intros [= <-]; exact Hnum].
  destruct (match_option (c :: text)) as [m|]; [|intros [= <-]; exact Hnum].
  intros H. apply bind_ok_inv in H. destruct H as [score [_ H]].
  destruct (set_option q (group1 m) (strip (group2 m)) score) as [q'|] eqn:Hset;
    [|injection H as <-; exact Hnum].
  injection H as <-. destruct Hnum as (Hids & Hbank & Hq).
  destruct (set_option_id_bank _ _ _ _ _ Hset) as [Hid Hb].
  destruct (Hq q Hcur) as [Hid0 Hb0].
  split; [|split]; cbn [questions current_question]; try assumption.
  intros q0 [= <-]. split; congruence.
Qed.

Lemma run_numbered (bank : pystr) (paras : list paragraph) :
  forall st st', numbered bank st -> run bank st paras = Ok st' -> numbered bank st'.
Proof.
  induction paras as [|para rest IH]; intros st st' Hnum H.
  - injection H as <-. exact Hnum.
  - cbn [run] in H. apply bind_ok_inv in H. destruct H as [st1 [Hstep Hrun]].
    eapply IH; [|exact Hrun]. eapply step_numbered; eassumption.
Qed.

(** X2.  Whatever the document, the imported questions are numbered 1, 2, ...
    in the order of the output, and all carry the bank name given. *)
Theorem imported_ids_dense (has_docx : bool) (doc : doc_file) (bank : pystr) :
  List.map q_ID (parse_questions_from_doc has_docx doc bank)
  = dense_ids (List.length (parse_questions_from_doc has_docx doc bank))
  /\ Forall (fun q => q_Bank q = bank) (parse_questions_from_doc has_docx doc bank).
Proof.
  unfold parse_questions_from_doc.
  destruct has_docx; cbn [negb]; [|split; [reflexivity | constructor]].
  destruct doc as [| |paras]; try (split; [reflexivity | constructor]).
  unfold parse_paragraphs.
  destruct (run bank initial paras) as [st|e] eqn:Hrun; cbn [bind];
    [|split; [reflexivity | constructor]].
  apply flush_numbered. eapply run_numbered; [|exact Hrun].
  split; [reflexivity|]. split; [constructor | discriminate].
Qed.



(** *** A fully scored document *)

Lemma output_only_complete_blocks_witness :
  exists paras b,
    DocReadable scored_doc = DocReadable paras /\ In b (blocks paras) /\
    block_title b = q_Question first_question /\ (4 <= detected (snd b))%nat.
Proof.
  apply (ImporterFacts.output_only_complete_blocks true (DocReadable scored_doc)
           (u "题库一") first_question).
  vm_compute. left. reflexivity.
Defined.


End OptionTextFacts.


(** ** Saving, loading and the first run *)

Module StorageFacts.
Import Importer Bank Results Setup Admin BankSpec QuizSpec FrameSpec.

(** *** Dictionaries keyed by strings *)


Lemma dict_get_set_other {V} (d : dict pystr V) (k k' : pystr) (v : V) :
  k' <> k ->
  dict_get pystr_eqb (dict_set pystr_eqb d k v) k' = dict_get pystr_eqb d k'.
Proof.
  intros Hne. induction d as [|[k0 v0] d IH]; cbn [dict_set dict_get].
  - destruct (pystr_eqb_spec k k'); [congruence | reflexivity].
  - destruct (pystr_eqb_spec k0 k) as [->|Hk]; cbn [dict_get].
    + destruct (pystr_eqb_spec k k'); [congruence | reflexivity].
    + destruct (pystr_eqb k0 k'); [reflexivity | exact IH].
Qed.

Lemma dict_get_sheets (d : dict pystr DataFrame) (k : pystr) :
  dict_get pystr_eqb
    (List.map (fun '(bank, bank_df) => (bank, SheetData bank_df)) d) k
  = option_map SheetData (dict_get pystr_eqb d k).
Proof.
  induction d as [|[k' v'] d IH]; cbn [List.map dict_get]; [reflexivity|].
  destruct (pystr_eqb k' k); [reflexivity | exact IH].
Qed.


Lemma read_existing_three (wb : workbook) (other : pystr) :
  In other BANK_NAMES ->
  dict_get pystr_eqb (read_existing wb BANK_NAMES []) other
  = Some (kept wb other).
Proof.
  unfold kept.
  intros [<-|[<-|[<-|[]]]]; vm_compute; reflexivity.
Qed.




(** X8.  Saving one bank does not change what another of the three banks
    loads as, whether its sheet was readable or not. *)
Theorem save_keeps_other_banks (wb : workbook) (df : DataFrame)
  (bank_name other : pystr) :
  In other BANK_NAMES -> other <> bank_name ->
  load_questions (save_questions wb df bank_name) (Some other)
  = load_questions wb (Some other).
Proof.
  intros Hin Hne.
  assert (Hnon : other <> []) by (destruct Hin as [<-|[<-|[<-|[]]]]; vm_compute; discriminate).
  destruct other as [|c s]; [congruence|].
  unfold load_questions.
  assert (Hread : read_excel (save_questions wb df bank_name) (c :: s)
                  = Ok (kept wb (c :: s))).
  { unfold save_questions, read_excel.
    rewrite dict_get_sheets, dict_get_set_other by exact Hne.
    rewrite (read_existing_three wb (c :: s) Hin). reflexivity. }
  rewrite Hread. cbn [bind]. unfold kept.
  destruct (read_excel wb (c :: s)) as [d|e]; reflexivity.
Qed.

Lemma save_keeps_other_banks_witness :
  load_questions (save_questions crowded_workbook short_canonical (u "题库三"))
    (Some (u "题库二"))
  = load_questions crowded_workbook (Some (u "题库二")).
Proof.
  apply (save_keeps_other_banks crowded_workbook short_canonical
           (u "题库三") (u "题库二")).
  - vm_compute. auto.
  - vm_compute. discriminate.
Defined.

(** *** Legacy sheets *)

Lemma series_lookup_present (cols : list pystr) (c : pystr) :
  existsb (pystr_eqb c) cols = true ->
  forall cells, (List.length cols <= List.length cells)%nat ->
  exists v, series_lookup cols cells c = Some v.
Proof.
  induction cols as [|k cols IH]; cbn [existsb]; [discriminate|].
  intros H [|v cells] Hlen; cbn [List.length] in Hlen; [lia|].
  cbn [series_lookup]. destruct (pystr_eqb_spec k c) as [->|Hne]; [eauto|].
  apply IH; [|lia]. apply orb_true_iff in H. destruct H as [H|H]; [|exact H].
  apply pystr_eqb_eq in H. congruence.
Qed.

Lemma rows_equivalent_exists (cols : list pystr) (bank : pystr)
  (lrows : list (list cell)) :
  existsb (pystr_eqb leg_Question) cols = true ->
  forallb (fun cells => (List.length cells =? List.length cols)%nat) lrows = true ->
  forall idx, exists crows, rows_equivalent cols bank idx lrows crows.
Proof.
  intros Hcol. induction lrows as [|lrow lrows IH]; intros Hrect idx.
  - exists []. constructor.
  - cbn [forallb] in Hrect. apply andb_true_iff in Hrect. destruct Hrect as [Hrow Hrest].
    apply Nat.eqb_eq in Hrow.
    destruct (series_lookup_present cols leg_Question Hcol lrow) as [question Hq]; [lia|].
    destruct (IH Hrest (S idx)) as [crows Hcrows].
    eexists (_ :: crows). constructor; [|exact Hcrows].
    exists question. split; [exact Hq | reflexivity].
Qed.

Lemma rows_equivalent_ids (cols : list pystr) (bank : pystr) (idx : nat)
  (lrows crows : list (list cell)) :
  rows_equivalent cols bank idx lrows crows ->
  List.map (fun cells => series_lookup canonical_columns cells col_ID) crows
  = List.map (fun i => Some (CInt (Z.of_nat i + 1))) (seq idx (List.length lrows))
  /\ List.map (fun cells => series_lookup canonical_columns cells col_Bank) crows
     = List.map (fun _ => Some (CStr bank)) lrows.
Proof.
  induction 1 as [idx|idx lrow lrows crow crows (question & _ & ->) _ [IH1 IH2]].
  - split; reflexivity.
  - cbn [List.length seq List.map]. rewrite IH1, IH2. split; reflexivity.
Qed.

(** X9.  A legacy sheet is always normalized: no exception, and row number i
    (from 0) becomes the canonical row with id i + 1, the name of the sheet
    as bank and the legacy cells, whatever ids or banks the sheet held. *)
Theorem legacy_sheet_normalizes (df : DataFrame) (bank : pystr) :
  has_column df leg_Question = true ->
  rectangular df = true ->
  exists out,
    normalize_df df bank = Ok out
    /\ rows_equivalent (columns df) bank 0 (rows df) (rows out)
    /\ column_cells out col_ID
       = List.map (fun i => Some (CInt (Z.of_nat i + 1)))
           (seq 0 (List.length (rows df)))
    /\ column_cells out col_Bank = List.map (fun _ => Some (CStr bank)) (rows df)
    /\ (rows df <> [] -> columns out = canonical_columns).
Proof.
  intros Hcol Hrect.
  destruct (rows_equivalent_exists (columns df) bank (rows df) Hcol Hrect 0%nat)
    as [crows Hcrows].
  destruct (rows df) as [|lrow lrows] eqn:Hrows.
  - exists empty_frame. unfold normalize_df. rewrite Hcol, Hrows.
    inversion Hcrows; subst. repeat split; try reflexivity; try constructor.
    congruence.
  - exists {| columns := canonical_columns; rows := crows |}.
    split.
    + apply BankFacts.normalize_legacy.
      * split; [exact Hcol|]. split; [reflexivity|]. rewrite Hrows. exact Hcrows.
      * rewrite Hrows. discriminate.
    + split; [exact Hcrows|]. unfold column_cells. cbn [columns rows].
      destruct (rows_equivalent_ids _ _ _ _ _ Hcrows) as [H1 H2].
      split; [exact H1|]. split; [exact H2 | reflexivity].
Qed.

Lemma legacy_sheet_normalizes_witness :
  exists out,
    normalize_df legacy_bank (u "题库二") = Ok out
    /\ rows_equivalent (columns legacy_bank) (u "题库二") 0 (rows legacy_bank) (rows out)
    /\ column_cells out col_ID
       = List.map (fun i => Some (CInt (Z.of_nat i + 1)))
           (seq 0 (List.length (rows legacy_bank)))
    /\ column_cells out col_Bank
       = List.map (fun _ => Some (CStr (u "题库二"))) (rows legacy_bank)
    /\ (rows legacy_bank <> [] -> columns out = canonical_columns).
Proof.
  apply (legacy_sheet_normalizes legacy_bank (u "题库二")).
  - vm_compute. reflexivity.
  - vm_compute. reflexivity.
Defined.

(** *** Writing a column *)












(** *** The first run *)

Lemma default_bank_usable (bank : pystr) :
  exists df, create_default_questions_for_bank bank = Ok df /\ usable_bank df
             /\ List.length (rows df) = 10%nat.
Proof.
  eexists. split; [vm_compute; reflexivity|].
  split; [|reflexivity]. repeat split.
Qed.

Lemma imported_bank_usable (q : question) (qs : list question) :
  exists df,
    select_columns (frame_of_records (List.map question_record (q :: qs)))
      canonical_columns = Ok df
    /\ usable_bank df /\ rows df = List.map question_row (q :: qs).
Proof.
  exists {| columns := canonical_columns; rows := List.map question_row (q :: qs) |}.
  assert (Hrow : forall q0,
            List.map (fun c => row_get canonical_columns
                                 (List.map (fun c0 =>
                                    match dict_get pystr_eqb (question_record q0) c0 with
                                    | Some v => v
                                    | None => CNaN
                                    end) canonical_columns) c CNaN) canonical_columns
            = question_row q0).
  { intros q0. vm_compute. reflexivity. }
  split.
  - unfold select_columns, frame_of_records. cbn [List.map].
    change (dict_keys (question_record q)) with canonical_columns.
    change (forallb (has_column _) canonical_columns) with true. cbv iota.
    f_equal. f_equal. unfold reindex. cbn [columns rows List.map].
    rewrite Hrow. f_equal. rewrite !map_map.
    apply map_ext. intros q0. apply Hrow.
  - split; [|reflexivity]. split; [reflexivity|]. split; [reflexivity|].
    unfold question_frame. cbn [columns rows]. rewrite forallb_forall.
    intros r Hr. apply in_map_iff in Hr. destruct Hr as [q0 [<- _]].
    vm_compute. reflexivity.
Qed.

Lemma bank_sheet_usable (has_docx : bool) (doc : doc_file) (bank : pystr) :
  exists df, bank_sheet has_docx doc bank = Ok (bank, SheetData df) /\ usable_bank df.
Proof.
  unfold bank_sheet.
  destruct (parse_questions_from_doc has_docx doc bank) as [|q qs].
  - destruct (default_bank_usable bank) as (df & -> & Hu & _). exists df. split; [reflexivity | exact Hu].
  - destruct (imported_bank_usable q qs) as (df & -> & Hu & _). exists df. split; [reflexivity | exact Hu].
Qed.

Lemma load_usable (wb : workbook) (bank : pystr) (df : DataFrame) :
  bank <> [] -> read_excel wb bank = Ok df -> columns df = canonical_columns ->
  load_questions wb (Some bank) = df.
Proof.
  intros Hne Hread Hcols. destruct bank as [|c s]; [congruence|].
  unfold load_questions. rewrite Hread. cbn [bind].
  rewrite (BankFacts.normalize_canonical df (c :: s) Hcols). reflexivity.
Qed.

Lemma three_sheets_usable (sheet_of : pystr -> result (pystr * sheet)) :
  (forall bank, exists df, sheet_of bank = Ok (bank, SheetData df) /\ usable_bank df) ->
  exists sheets,
    write_sheets sheet_of BANK_NAMES = Ok sheets
    /\ List.map fst sheets = BANK_NAMES
    /\ forall bank, In bank BANK_NAMES ->
         usable_bank (load_questions (Some sheets) (Some bank)).
Proof.
  intros Hsheet. unfold BANK_NAMES. cbn [write_sheets].
  destruct (Hsheet (u "题库一")) as (d1 & -> & Hu1).
  destruct (Hsheet (u "题库二")) as (d2 & -> & Hu2).
  destruct (Hsheet (u "题库三")) as (d3 & -> & Hu3).
  cbn [bind]. eexists. split; [reflexivity|]. split; [reflexivity|].
  intros bank [<-|[<-|[<-|[]]]].
  - rewrite (load_usable _ _ d1); [exact Hu1 | vm_compute; discriminate
                                   | vm_compute; reflexivity | apply Hu1].
  - rewrite (load_usable _ _ d2); [exact Hu2 | vm_compute; discriminate
                                   | vm_compute; reflexivity | apply Hu2].
  - rewrite (load_usable _ _ d3); [exact Hu3 | vm_compute; discriminate
                                   | vm_compute; reflexivity | apply Hu3].
Qed.

(** X12.  On a first run, with no questions file, [init_db] does not fail and
    writes a workbook with exactly the three banks, each of them usable
    (canonical columns, at least one question, well-formed rows), whatever
    the document files are and whether or not documents can be parsed; it
    also creates the results table when there is none. *)
Theorem init_db_creates_usable_banks (has_docx : bool) (fs : files) :
  questions_file fs = None ->
  exists fs' sheets,
    init_db has_docx fs = Ok fs'
    /\ questions_file fs' = Some (Some sheets)
    /\ List.map fst sheets = BANK_NAMES
    /\ (forall bank, In bank BANK_NAMES ->
          usable_bank (load_questions (Some sheets) (Some bank)))
    /\ (results fs = None -> results fs' = cleared).
Proof.
  intros Hq. unfold init_db. rewrite Hq.
  destruct (doc_exists (doc_path fs) && has_docx).
  - destruct (three_sheets_usable (bank_sheet has_docx (doc_path fs)))
      as (sheets & -> & Hnames & Hload); [apply bank_sheet_usable|].
    cbn [bind]. eexists. exists sheets. split; [reflexivity|].
    cbn [questions_file results].
    split; [reflexivity|]. split; [exact Hnames|]. split; [exact Hload|].
    intros ->. reflexivity.
  - destruct (three_sheets_usable
                (fun bank_name =>
                   df <- create_default_questions_for_bank bank_name ;;
                   Ok (bank_name, SheetData df)))
      as (sheets & -> & Hnames & Hload).
    { intros bank. destruct (default_bank_usable bank) as (df & -> & Hu & _).
      exists df. split; [reflexivity | exact Hu]. }
    cbn [bind]. eexists. exists sheets. split; [reflexivity|].
    cbn [questions_file results].
    split; [reflexivity|]. split; [exact Hnames|]. split; [exact Hload|].
    intros ->. reflexivity.
Qed.

Lemma init_db_creates_usable_banks_witness :
  exists fs' sheets,
    init_db true first_run_files = Ok fs'
    /\ questions_file fs' = Some (Some sheets)
    /\ List.map fst sheets = BANK_NAMES
    /\ (forall bank, In bank BANK_NAMES ->
          usable_bank (load_questions (Some sheets) (Some bank)))
    /\ (results first_run_files = None -> results fs' = cleared).
Proof.
  apply (init_db_creates_usable_banks true first_run_files). reflexivity.
Defined.

Lemma init_db_fresh_shape (has_docx : bool) (fs : files) :
  questions_file fs = None ->
  exists fs' sheets,
    init_db has_docx fs = Ok fs'
    /\ questions_file fs' = Some (Some sheets)
    /\ questions_doc fs' = questions_doc fs
    /\ questions_docx fs' = questions_docx fs
    /\ (forall r, results fs = Some r -> results fs' = Some r)
    /\ results fs' <> None.
Proof.
  intros Hq. unfold init_db. rewrite Hq.
  assert (Hw : forall sheet_of,
            (forall bank, exists df, sheet_of bank = Ok (bank, SheetData df) /\ usable_bank df) ->
            exists sheets, write_sheets sheet_of BANK_NAMES = Ok sheets).
  { intros f Hf. destruct (three_sheets_usable f Hf) as (sheets & H & _). eauto. }
  destruct (doc_exists (doc_path fs) && has_docx).
  - destruct (Hw _ (bank_sheet_usable has_docx (doc_path fs))) as [sheets ->].
    cbn [bind]. eexists. exists sheets. split; [reflexivity|].
    cbn [questions_file results questions_doc questions_docx].
    split; [reflexivity|]. split; [reflexivity|]. split; [reflexivity|].
    split; [intros r ->; reflexivity | destruct (results fs); discriminate].
  - destruct (Hw (fun bank_name =>
                    df <- create_default_questions_for_bank bank_name ;;
                    Ok (bank_name, SheetData df))) as [sheets ->].
    { intros bank. destruct (default_bank_usable bank) as (df & -> & Hu & _).
      exists df. split; [reflexivity | exact Hu]. }
    cbn [bind]. eexists. exists sheets. split; [reflexivity|].
    cbn [questions_file results questions_doc questions_docx].
    split; [reflexivity|]. split; [reflexivity|]. split; [reflexivity|].
    split; [intros r ->; reflexivity | destruct (results fs); discriminate].
Qed.

(** X13.  [init_db] never fails, never replaces a questions file or a results
    file that exists, and running it again changes nothing. *)
Theorem init_db_keeps_existing_files (has_docx has_docx' : bool) (fs : files) :
  exists fs',
    init_db has_docx fs = Ok fs'
    /\ (forall wb, questions_file fs = Some wb -> questions_file fs' = Some wb)
    /\ (forall r, results fs = Some r -> results fs' = Some r)
    /\ questions_doc fs' = questions_doc fs
    /\ questions_docx fs' = questions_docx fs
    /\ init_db has_docx' fs' = Ok fs'.
Proof.
  destruct (questions_file fs) as [wb|] eqn:Hq.
  - unfold init_db at 1. rewrite Hq. cbn [bind]. eexists. split; [reflexivity|].
    cbn [questions_file results questions_doc questions_docx].
    split; [intros wb0 [= <-]; reflexivity|]. split.
    { intros r ->. reflexivity. }
    split; [reflexivity|]. split; [reflexivity|].
    unfold init_db. cbn [questions_file results questions_doc questions_docx bind].
    destruct (results fs); reflexivity.
  - destruct (init_db_fresh_shape has_docx fs Hq)
      as (fs' & sheets & Hinit & Hq' & Hd & Hdx & Hr & Hsome).
    exists fs'. split; [exact Hinit|].
    split; [intros wb [=]|]. split; [exact Hr|]. split; [exact Hd|]. split; [exact Hdx|].
    unfold init_db. rewrite Hq'. cbn [bind].
    destruct fs' as [d dx q r]. cbn [questions_file results questions_doc questions_docx] in *.
    subst q. destruct r as [r|]; [reflexivity | congruence].
Qed.

End StorageFacts.


(** ** The results table *)

Module ResultsFacts.
Import Bank Results Quiz Admin QuizSpec FrameSpec.

Lemma press_cleared (presses : list click) :
  forall flag, press_all flag cleared presses = Ok (flag, cleared).
Proof.
  induction presses as [|p presses IH]; intros flag; [reflexivity|].
  cbn [press_all]. unfold cleared at 1 2. cbn [load_results bind results_panel rows].
  apply IH.
Qed.

Lemma press_armed (file : results_file) (df_res : DataFrame) (presses : list click) :
  load_results file = Ok df_res -> rows df_res <> [] ->
  press_all (Some true) file presses
  = Ok (match clear_presses presses with
        | O => (Some true, file)
        | S _ => (Some false, cleared)
        end).
Proof.
  intros Hload Hne. induction presses as [|p presses IH]; [reflexivity|].
  cbn [press_all]. rewrite Hload. cbn [bind]. unfold results_panel.
  rewrite Hload. cbn [bind]. destruct (rows df_res) as [|r rs] eqn:Hrows; [congruence|].
  destruct p; unfold clear_presses; cbn [filter List.length bind].
  - exact IH.
  - rewrite Nat.eqb_refl. cbn [negb bind]. exact IH.
  - apply press_cleared.
Qed.

(** X14.  The clear button needs two presses: on a table with rows and an unset
    confirmation flag, a sequence of runs without a press leaves all as it
    is, one press only sets the flag, and from the second press on the
    table is the empty header; other runs in between do not reset the
    flag. *)
Theorem clear_needs_two_presses (flag : option bool) (file : results_file)
  (df_res : DataFrame) (presses : list click) :
  load_results file = Ok df_res -> rows df_res <> [] -> flag <> Some true ->
  press_all flag file presses
  = Ok (match clear_presses presses with
        | O => (flag, file)
        | S O => (Some true, file)
        | S (S _) => (Some false, cleared)
        end).
Proof.
  intros Hload Hne Hflag. induction presses as [|p presses IH]; [reflexivity|].
  cbn [press_all]. rewrite Hload. cbn [bind]. unfold results_panel.
  rewrite Hload. cbn [bind]. destruct (rows df_res) as [|r rs] eqn:Hrows; [congruence|].
  destruct p; unfold clear_presses; cbn [filter List.length bind].
  - exact IH.
  - rewrite Nat.eqb_refl. cbn [negb bind]. exact IH.
  - assert (Harm : press_all (Some true) file presses
                   = Ok (match clear_presses presses with
                         | O => (Some true, file)
                         | S _ => (Some false, cleared)
                         end)).
    { apply (press_armed file df_res presses Hload). rewrite Hrows. discriminate. }
    destruct flag as [[|]|]; [congruence | exact Harm | exact Harm].
Qed.

Lemma clear_needs_two_presses_witness :
  press_all None (Some (SheetData stored_results))
    [ClickClear; NoClick; ClickSaveChanges; ClickClear; ClickClear]
  = Ok (Some false, cleared).
Proof.
  apply (clear_needs_two_presses None (Some (SheetData stored_results))
           stored_results
           [ClickClear; NoClick; ClickSaveChanges; ClickClear; ClickClear]).
  - reflexivity.
  - vm_compute. discriminate.
  - discriminate.
Defined.

(** *** Appending to the standard table *)




End ResultsFacts.


(** ** Sessions and scores *)

Module SessionFacts.
Import Bank Results Quiz QuizSpec FrameSpec.

Section Runs.
Variable str_of_dict : dict cell cell -> pystr.

(** X16.  A run of the candidate page writes to the results file only when it
    reports the submission as accepted, and it reports that only when the
    button was pressed with a non-empty trimmed name and phone. *)
Theorem writes_only_on_submission (ss : session_state) (wb : workbook)
  (file : results_file) (inp : inputs) (out : outcome) :
  candidate_view str_of_dict ss wb file inp = Ok out ->
  (out_view out <> Submitted -> out_results out = file)
  /\ (out_view out = Submitted ->
      submit inp = true /\ strip (name inp) <> [] /\ strip (phone inp) <> []).
Proof.
  unfold candidate_view. intros H. apply bind_ok_inv in H.
  destruct H as [[ss1 shown] [_ H]]. cbn beta iota in H.
  destruct shown as [ql|].
  2:{ injection H as <-. cbn [out_view out_results]. split; [reflexivity | discriminate]. }
  unfold form_and_submit in H. apply bind_ok_inv in H. destruct H as [answers [_ H]].
  destruct (submit inp).
  2:{ injection H as <-. cbn [out_view out_results]. split; [reflexivity | discriminate]. }
  destruct (strip (name inp)) as [|n0 nr].
  { injection H as <-. cbn [out_view out_results]. split; [reflexivity | discriminate]. }
  destruct (strip (phone inp)) as [|p0 pr].
  { injection H as <-. cbn [out_view out_results]. split; [reflexivity | discriminate]. }
  apply bind_ok_inv in H. destruct H as [file' [_ H]]. injection H as <-.
  cbn [out_view out_results]. split; [congruence|].
  intros _. repeat split; discriminate.
Qed.

(** X17.  A session whose bank loads empty is shown the empty-bank message, and
    stays on that bank: every later run of the session on the same workbook
    ends the same way, whatever is typed, drawn or stored. *)
Theorem empty_bank_sticks (ss : session_state) (wb : workbook)
  (file : results_file) (inp : inputs) (bank : pystr) :
  selected_bank_seed (select_bank ss wb (bank_draw inp)) = Some bank ->
  is_empty (load_questions wb (Some bank)) = true ->
  candidate_view str_of_dict ss wb file inp
  = Ok {| out_session := select_bank ss wb (bank_draw inp); out_results := file;
          out_view := EmptyBank; out_order := None |}
  /\ forall file' inp',
       candidate_view str_of_dict (select_bank ss wb (bank_draw inp)) wb file' inp'
       = Ok {| out_session := select_bank ss wb (bank_draw inp);
               out_results := file'; out_view := EmptyBank; out_order := None |}.
Proof.
  intros Hseed Hempty. split.
  - unfold candidate_view, prepare. rewrite Hseed, Hempty. reflexivity.
  - intros file' inp'. unfold candidate_view, prepare.
    rewrite (QuizFacts.select_bank_pinned _ wb (bank_draw inp') bank Hseed).
    rewrite Hseed, Hempty. reflexivity.
Qed.

End Runs.

Lemma writes_only_on_submission_witness :
  (out_view {| out_session := sample_session; out_results := None;
               out_view := Warning; out_order := Some sample_order |} <> Submitted ->
   out_results {| out_session := sample_session; out_results := None;
                  out_view := Warning; out_order := Some sample_order |} = None)
  /\ (out_view {| out_session := sample_session; out_results := None;
                  out_view := Warning; out_order := Some sample_order |} = Submitted ->
      submit (sample_inputs "   " "13800000000") = true
      /\ strip (name (sample_inputs "   " "13800000000")) <> []
      /\ strip (phone (sample_inputs "   " "13800000000")) <> []).
Proof.
  apply (writes_only_on_submission sample_render fresh_session sample_workbook None
           (sample_inputs "   " "13800000000")).
  vm_compute. reflexivity.
Defined.

Lemma empty_bank_sticks_witness :
  candidate_view sample_render fresh_session thin_workbook None
    (sample_inputs "王芳" "13800000000")
  = Ok {| out_session := select_bank fresh_session thin_workbook 7;
          out_results := None; out_view := EmptyBank; out_order := None |}
  /\ forall file' inp',
       candidate_view sample_render (select_bank fresh_session thin_workbook 7)
         thin_workbook file' inp'
       = Ok {| out_session := select_bank fresh_session thin_workbook 7;
               out_results := file'; out_view := EmptyBank; out_order := None |}.
Proof.
  apply (empty_bank_sticks sample_render fresh_session thin_workbook None
           (sample_inputs "王芳" "13800000000") (u "题库二")).
  - vm_compute. reflexivity.
  - vm_compute. reflexivity.
Defined.

(** X18.  The bank drawn for a new session is a sheet of the workbook (one of
    the three fixed names when the workbook cannot be opened), and a
    session that has a bank keeps it. *)
Theorem drawn_bank_is_a_sheet (ss : session_state) (wb : workbook) (draw : nat) :
  selected_bank_seed ss = None ->
  (forall sheets, wb = Some sheets -> sheets <> [] ->
     exists bank, selected_bank_seed (select_bank ss wb draw) = Some bank
                  /\ In bank (List.map fst sheets))
  /\ (wb = None ->
      exists bank, selected_bank_seed (select_bank ss wb draw) = Some bank
                   /\ In bank BANK_NAMES)
  /\ forall wb' draw',
       select_bank (select_bank ss wb draw) wb' draw' = select_bank ss wb draw.
Proof.
  intros Hnone. split; [|split].
  - intros sheets -> Hne. unfold select_bank. rewrite Hnone. cbn [sheet_names].
    destruct (List.map fst sheets) as [|b names] eqn:Hnames.
    { destruct sheets; [congruence | discriminate]. }
    eexists. split; [reflexivity|]. apply nth_In.
    apply Nat.mod_upper_bound. discriminate.
  - intros ->. unfold select_bank. rewrite Hnone. cbn [sheet_names].
    eexists. split; [reflexivity|]. apply nth_In.
    apply Nat.mod_upper_bound. discriminate.
  - intros wb' draw'.
    destruct (QuizFacts.select_bank_some ss wb draw) as [bank Hb].
    apply (QuizFacts.select_bank_pinned _ wb' draw' bank Hb).
Qed.

Lemma drawn_bank_is_a_sheet_witness :
  exists bank,
    selected_bank_seed (select_bank fresh_session BankSpec.crowded_workbook 7) = Some bank
    /\ In bank [u "题库一"; u "备份"; u "题库二"].
Proof.
  destruct (drawn_bank_is_a_sheet fresh_session BankSpec.crowded_workbook 7 eq_refl)
    as [H _].
  apply (H [(u "题库一", SheetData BankSpec.short_canonical);
            (u "备份", SheetData BankSpec.short_legacy);
            (u "题库二", SheetCorrupt)]).
  - reflexivity.
  - discriminate.
Defined.

(** *** Bounds of the total *)




(** *** Distinct ids *)

Lemma bytes_of_string_inj (a b : string) :
  bytes_of_string a = bytes_of_string b -> a = b.
Proof.
  unfold bytes_of_string. intros H.
  rewrite <- (string_of_list_ascii_of_string a), <- (string_of_list_ascii_of_string b).
  f_equal. revert H. generalize (list_ascii_of_string a) (list_ascii_of_string b).
  intros l1. induction l1 as [|x l1 IH]; intros [|y l2] H; try discriminate; [reflexivity|].
  cbn [List.map] in H. injection H as Hxy Hl. f_equal; [|exact (IH _ Hl)].
  rewrite <- (ascii_N_embedding x), <- (ascii_N_embedding y), Hxy. reflexivity.
Qed.

Lemma str_of_Z_inj (a b : Z) : str_of_Z a = str_of_Z b -> a = b.
Proof.
  unfold str_of_Z. intros H. apply bytes_of_string_inj in H.
  assert (Hnil : forall z, Z.to_int z <> Decimal.Pos Decimal.Nil
                           /\ Z.to_int z <> Decimal.Neg Decimal.Nil).
  { intros [|p|p]; cbn; split; try discriminate;
      intros [= Hp]; exact (DecimalPos.Unsigned.to_uint_nonnil p Hp). }
  assert (Hint : Z.to_int a = Z.to_int b).
  { destruct (Hnil a) as [Ha1 Ha2]. destruct (Hnil b) as [Hb1 Hb2].
    pose proof (NilZero.isi (Z.to_int a) Ha1 Ha2) as Ia.
    pose proof (NilZero.isi (Z.to_int b) Hb1 Hb2) as Ib.
    rewrite H in Ia. congruence. }
  rewrite <- (DecimalZ.of_to a), <- (DecimalZ.of_to b), Hint. reflexivity.
Qed.

Lemma uint_string_no_underscore (d : Decimal.uint) :
  ~ In 95%N (bytes_of_string (NilEmpty.string_of_uint d)).
Proof.
  unfold bytes_of_string.
  induction d; cbn; [intros [] | intros [H|H]; [discriminate H | auto] ..].
Qed.

Lemma str_of_Z_no_underscore (z : Z) : ~ In 95%N (str_of_Z z).
Proof.
  unfold str_of_Z, NilZero.string_of_int, NilZero.string_of_uint.
  destruct (Z.to_int z) as [d|d].
  - destruct d; try apply uint_string_no_underscore.
    cbn. intros [H|[]]. discriminate H.
  - destruct d;
      [ cbn; intros [H|[H|[]]]; discriminate H
      | intros [H|H]; [discriminate H | exact (uint_string_no_underscore _ H)] .. ].
Qed.

Lemma split_at_last (x : N) (l1 : pystr) :
  forall l2 r1 r2 : pystr,
  ~ In x r1 -> ~ In x r2 ->
  (l1 ++ x :: r1 = l2 ++ x :: r2)%list -> r1 = r2.
Proof.
  intros l2 r1 r2 H1 H2 H.
  apply (f_equal (@rev N)) in H. rewrite !rev_app_distr in H. cbn [rev] in H.
  rewrite <- !app_assoc in H. cbn [app] in H.
  assert (Hrev : rev r1 = rev r2).
  { assert (G : forall a b ta tb : pystr,
              ~ In x a -> ~ In x b -> (a ++ x :: ta = b ++ x :: tb)%list -> a = b).
    { induction a as [|y a IHa]; intros [|z b] ta tb Ha Hb E; cbn [app] in E.
      - reflexivity.
      - injection E as -> _. exfalso. apply Hb. left. reflexivity.
      - injection E as -> _. exfalso. apply Ha. left. reflexivity.
      - injection E as -> E. f_equal. apply (IHa b ta tb); [| |exact E].
        + intros Hin. apply Ha. right. exact Hin.
        + intros Hin. apply Hb. right. exact Hin. }
    apply (G _ _ _ _) in H; [exact H | |].
    - intros Hin. apply H1. apply in_rev. exact Hin.
    - intros Hin. apply H2. apply in_rev. exact Hin. }
  rewrite <- (rev_involutive r1), Hrev. apply rev_involutive.
Qed.

(** Two rows with strings as banks and different integer ids have
    different qids. *)
Lemma qid_text_inj (b1 b2 : pystr) (z1 z2 : Z) :
  (b1 ++ u "_" ++ str_of_Z z1 = b2 ++ u "_" ++ str_of_Z z2)%list -> z1 = z2.
Proof.
  change (u "_") with [95%N]. cbn [app]. intros H.
  apply str_of_Z_inj.
  apply (split_at_last 95%N b1 b2); [apply str_of_Z_no_underscore .. | exact H].
Qed.

Lemma qids_of_rows (cols : list pystr) (rs : list (list cell)) :
  forallb (row_ok cols) rs = true ->
  forall zs,
  List.map (fun cells => series_lookup cols cells col_ID) rs
  = List.map (fun z => Some (CInt z)) zs ->
  exists bz : list (pystr * Z),
    List.map snd bz = zs
    /\ List.map (qid_of cols) rs
       = List.map Ok (List.map (fun '(b, z) => (b ++ u "_" ++ str_of_Z z)%list) bz).
Proof.
  induction rs as [|row rs IH]; intros Hall [|z zs] Hids; try discriminate.
  - exists []. split; reflexivity.
  - cbn [forallb] in Hall. apply andb_true_iff in Hall. destruct Hall as [Hrow Hrest].
    cbn [List.map] in Hids. injection Hids as Hid Hids.
    destruct (IH Hrest zs Hids) as (bz & Hsnd & Hq).
    destruct (QuizFacts.row_ok_bank cols row [] Hrow) as [b Hb].
    exists ((b, z) :: bz). cbn [List.map snd]. rewrite Hsnd, <- Hq. split; [reflexivity|].
    f_equal. unfold qid_of, getitem. rewrite Hid, Hb. reflexivity.
Qed.

Lemma NoDup_qids (bz : list (pystr * Z)) :
  NoDup (List.map snd bz) ->
  NoDup (List.map (fun '(b, z) => (b ++ u "_" ++ str_of_Z z)%list) bz).
Proof.
  induction bz as [|[b z] bz IH]; cbn [List.map snd]; intros Hnd; [constructor|].
  inversion Hnd as [|? ? Hnotin Hrest]; subst. constructor; [|exact (IH Hrest)].
  intros Hin. apply in_map_iff in Hin. destruct Hin as [[b' z'] [Heq Hin']].
  apply qid_text_inj in Heq. subst z'. apply Hnotin.
  apply in_map_iff. exists (b', z). split; [reflexivity | exact Hin'].
Qed.

Lemma combine_fst_snd {A B} (l1 : list A) :
  forall l2 : list B, List.length l1 = List.length l2 ->
  List.map fst (List.combine l1 l2) = l1 /\ List.map snd (List.combine l1 l2) = l2.
Proof.
  induction l1 as [|x l1 IH]; intros [|y l2] H; try discriminate; [split; reflexivity|].
  cbn [List.length] in H. destruct (IH l2) as [H1 H2]; [lia|].
  cbn [List.combine List.map fst snd]. rewrite H1, H2. split; reflexivity.
Qed.

(** X20.  On a well-formed frame whose ids are pairwise distinct integers, the
    qids are pairwise distinct, so the form yields exactly one answer per
    question, in the order of the questions: the answer at position i is
    the letter chosen for question i. *)
Theorem distinct_ids_one_answer_each (ql : DataFrame) (choice : nat -> letter)
  (zs : list Z) :
  question_frame ql = true ->
  column_cells ql col_ID = List.map (fun z => Some (CInt z)) zs ->
  NoDup zs ->
  exists answers,
    collect_answers (columns ql) choice 0 (rows ql) [] = Ok answers
    /\ NoDup (dict_keys answers)
    /\ List.length answers = List.length (rows ql)
    /\ dict_values answers = List.map choice (seq 0 (List.length (rows ql))).
Proof.
  intros Hframe Hids Hnd.
  destruct (qids_of_rows (columns ql) (rows ql) Hframe zs Hids) as (bz & Hsnd & Hq).
  assert (Hqn : NoDup (List.map (fun '(b, z) => (b ++ u "_" ++ str_of_Z z)%list) bz))
    by (apply NoDup_qids; rewrite Hsnd; exact Hnd).
  assert (Hlen : List.length (List.map (fun '(b, z) => (b ++ u "_" ++ str_of_Z z)%list) bz)
                 = List.length (rows ql)).
  { apply (f_equal (@List.length _)) in Hq. rewrite !length_map in Hq.
    rewrite length_map. symmetry. exact Hq. }
  eexists. split.
  - apply (QuizFacts.distinct_qids_answers (columns ql) choice (rows ql) _ 0%nat []
             Hframe Hq). exact Hqn.
  - cbn [app]. unfold dict_keys, dict_values.
    destruct (combine_fst_snd
                (List.map (fun '(b, z) => (b ++ u "_" ++ str_of_Z z)%list) bz)
                (List.map choice (seq 0 (List.length (rows ql))))) as [H1 H2].
    { rewrite Hlen, length_map, length_seq. reflexivity. }
    split; [exact (eq_ind_r (fun l => NoDup l) Hqn H1)|]. split; [|exact H2].
    rewrite length_combine, !length_map, length_seq.
    rewrite length_map in Hlen. rewrite Hlen. apply Nat.min_id.
Qed.

Lemma distinct_ids_one_answer_each_witness :
  exists answers,
    collect_answers (columns sample_order) (fun _ => LB) 0 (rows sample_order) []
      = Ok answers
    /\ NoDup (dict_keys answers)
    /\ List.length answers = List.length (rows sample_order)
    /\ dict_values answers
       = List.map (fun _ => LB) (seq 0 (List.length (rows sample_order))).
Proof.
  apply (distinct_ids_one_answer_each sample_order (fun _ => LB) [2; 3; 1]%Z).
  - vm_compute. reflexivity.
  - vm_compute. reflexivity.
  - repeat constructor; simpl; intuition discriminate.
Defined.

End SessionFacts.


(** ** Filtering and grouping of sales *)

Module GroupingFacts.
Import Sales SalesSpec.
Local Open Scope Z_scope.

Lemma unique_In (l : list pystr) (x : pystr) : In x l -> In x (unique l).
Proof.
  induction l as [|y l IH]; [contradiction|].
  intros [->|Hin]; cbn [unique]; [left; reflexivity|].
  destruct (pystr_eqb_spec x y) as [->|Hne]; [left; reflexivity|].
  right. apply filter_In. split; [exact (IH Hin)|].
  apply negb_true_iff. apply pystr_eqb_neq. exact Hne.
Qed.

Lemma filter_all_departments (df : list sale) :
  filter (fun r => existsb (pystr_eqb (department r)) (unique (List.map department df))) df
  = df.
Proof.
  assert (H : forall r, In r df ->
            existsb (pystr_eqb (department r)) (unique (List.map department df)) = true).
  { intros r Hr. apply existsb_exists. exists (department r).
    split; [|apply pystr_eqb_refl]. apply unique_In. apply in_map. exact Hr. }
  revert H. generalize (unique (List.map department df)). intros sel.
  induction df as [|r df IH]; intros H; [reflexivity|].
  cbn [filter]. rewrite (H r (or_introl eq_refl)). f_equal.
  apply IH. intros r' Hr'. apply H. right. exact Hr'.
Qed.

(** X21.  With no department selected, and with the default selection of all
    departments, the dashboard shows every row of the sheet, in order. *)
Theorem empty_selection_keeps_all (df : list sale) :
  filtered_df df [] = df
  /\ filtered_df df (unique (List.map department df)) = df.
Proof.
  unfold filtered_df. split; [apply filter_all_departments|].
  destruct (unique (List.map department df)) eqn:E; rewrite <- E;
    apply filter_all_departments.
Qed.

(** *** Groups in general *)

Lemma pystr_ltb_trans (a : pystr) :
  forall b c, pystr_ltb a b = true -> pystr_ltb b c = true -> pystr_ltb a c = true.
Proof.
  induction a as [|x a IH]; intros [|y b] [|z c]; cbn [pystr_ltb]; try congruence.
  intros H1 H2. apply orb_true_iff in H1. apply orb_true_iff in H2.
  apply orb_true_iff.
  destruct H1 as [H1|H1]; destruct H2 as [H2|H2].
  - left. apply N.ltb_lt in H1. apply N.ltb_lt in H2. apply N.ltb_lt. lia.
  - apply andb_true_iff in H2. destruct H2 as [He _]. apply N.eqb_eq in He. subst.
    left. exact H1.
  - apply andb_true_iff in H1. destruct H1 as [He _]. apply N.eqb_eq in He. subst.
    left. exact H2.
  - apply andb_true_iff in H1. destruct H1 as [He1 Hl1].
    apply andb_true_iff in H2. destruct H2 as [He2 Hl2].
    apply N.eqb_eq in He1. apply N.eqb_eq in He2. subst.
    right. rewrite N.eqb_refl. cbn [andb]. eapply IH; eassumption.
Qed.

Lemma add_to_group_keys (k : pystr) (v : Z) (groups : list (pystr * Z)) (x : pystr) :
  In x (List.map fst (add_to_group k v groups)) ->
  x = k \/ In x (List.map fst groups).
Proof.
  induction groups as [|[k' s] groups IH]; cbn [add_to_group List.map fst In].
  - intros [<-|[]]. left. reflexivity.
  - destruct (pystr_eqb k k').
    + cbn [List.map fst In]. tauto.
    + destruct (pystr_ltb k k'); cbn [List.map fst In].
      * intros [<-|H]; [left; reflexivity | right; exact H].
      * intros [<-|H]; [right; left; reflexivity|].
        destruct (IH H) as [->|H']; [left; reflexivity | right; right; exact H'].
Qed.

Lemma add_to_group_sorted (k : pystr) (v : Z) (groups : list (pystr * Z)) :
  StronglySorted (fun a b => pystr_ltb a b = true) (List.map fst groups) ->
  StronglySorted (fun a b => pystr_ltb a b = true)
    (List.map fst (add_to_group k v groups)).
Proof.
  induction groups as [|[k' s] groups IH]; cbn [add_to_group List.map fst]; intros Hs.
  - constructor; constructor.
  - inversion Hs as [|? ? Hrest Hall]; subst.
    destruct (pystr_eqb_spec k k') as [->|Hne]; [exact Hs|].
    destruct (pystr_ltb k k') eqn:Hlt; cbn [List.map fst].
    + constructor; [exact Hs|]. constructor; [exact Hlt|].
      rewrite Forall_forall in *. intros x Hx.
      eapply pystr_ltb_trans; [exact Hlt | exact (Hall x Hx)].
    + constructor; [exact (IH Hrest)|].
      rewrite Forall_forall in *. intros x Hx.
      destruct (add_to_group_keys _ _ _ _ Hx) as [->|Hx']; [|exact (Hall x Hx')].
      destruct (SalesFacts.pystr_ltb_total k k' Hne) as [H|H]; [congruence | exact H].
Qed.

Lemma smaller_key_absent (k : pystr) (groups : list (pystr * Z)) :
  Forall (fun x => pystr_ltb k x = true) (List.map fst groups) ->
  dict_get pystr_eqb groups k = None.
Proof.
  induction groups as [|[k' s] groups IH]; cbn [List.map fst dict_get]; [reflexivity|].
  intros H. inversion H as [|? ? Hk Hrest]; subst.
  assert (E : pystr_eqb k' k = false).
  { apply pystr_eqb_neq. intros ->. pose proof (SalesFacts.pystr_ltb_neq _ _ Hk) as E.
    rewrite pystr_eqb_refl in E. discriminate. }
  rewrite E. exact (IH Hrest).
Qed.

Lemma add_to_group_lookup (k : pystr) (v : Z) (groups : list (pystr * Z)) (d : pystr) :
  StronglySorted (fun a b => pystr_ltb a b = true) (List.map fst groups) ->
  dict_get pystr_eqb (add_to_group k v groups) d
  = if pystr_eqb k d
    then Some match dict_get pystr_eqb groups k with
              | Some s => add64 s v
              | None => v
              end
    else dict_get pystr_eqb groups d.
Proof.
  induction groups as [|[k' s] groups IH]; cbn [add_to_group List.map fst]; intros Hs.
  - cbn [dict_get]. reflexivity.
  - inversion Hs as [|? ? Hrest Hall]; subst.
    destruct (pystr_eqb_spec k k') as [->|Hne].
    + cbn [dict_get]. rewrite pystr_eqb_refl.
      destruct (pystr_eqb k' d); reflexivity.
    + assert (E : pystr_eqb k' k = false) by (apply pystr_eqb_neq; congruence).
      destruct (pystr_ltb k k') eqn:Hlt.
      * assert (Hnone : dict_get pystr_eqb ((k', s) :: groups) k = None).
        { apply smaller_key_absent. cbn [List.map fst]. constructor; [exact Hlt|].
          rewrite Forall_forall in *. intros x Hx.
          eapply pystr_ltb_trans; [exact Hlt | exact (Hall x Hx)]. }
        rewrite Hnone. cbn [dict_get]. destruct (pystr_eqb k d); reflexivity.
      * cbn [dict_get]. rewrite E, (IH Hrest).
        destruct (pystr_eqb_spec k d) as [->|Hkd].
        -- rewrite E. reflexivity.
        -- reflexivity.
Qed.

Lemma department_sales_invariant (filtered : list sale) :
  StronglySorted (fun a b => pystr_ltb a b = true)
    (List.map fst (department_sales filtered))
  /\ forall d,
       dict_get pystr_eqb (department_sales filtered) d
       = match revenues_of d filtered with
         | [] => None
         | _ :: _ => Some (sum64 (revenues_of d filtered))
         end.
Proof.
  induction filtered as [|r rest [IHs IHl]] using rev_ind.
  - split; [constructor | reflexivity].
  - rewrite SalesFacts.department_sales_snoc. split; [apply add_to_group_sorted; exact IHs|].
    intros d. rewrite (add_to_group_lookup _ _ _ d IHs), SalesFacts.revenues_of_snoc.
    destruct (pystr_eqb_spec (department r) d) as [<-|Hne].
    + rewrite IHl, SalesFacts.sum64_snoc.
      destruct (revenues_of (department r) rest) as [|x xs] eqn:E; cbn [app].
      * rewrite SalesFacts.add64_first. reflexivity.
      * reflexivity.
    + rewrite app_nil_r. apply IHl.
Qed.

Lemma has_rows_iff_revenues (d : pystr) (filtered : list sale) :
  match revenues_of d filtered with
  | [] => None
  | _ :: _ => Some (sum64 (revenues_of d filtered))
  end
  = if existsb (fun r => pystr_eqb (department r) d) filtered
    then Some (sum64 (revenues_of d filtered))
    else None.
Proof.
  assert (H : existsb (fun r => pystr_eqb (department r) d) filtered
              = match revenues_of d filtered with [] => false | _ :: _ => true end).
  { unfold revenues_of. induction filtered as [|r rest IH]; [reflexivity|].
    cbn [filter existsb]. destruct (pystr_eqb (department r) d); cbn [List.map orb].
    - reflexivity.
    - exact IH. }
  rewrite H. destruct (revenues_of d filtered); reflexivity.
Qed.

(** X22.  The grouping by department, for any filtered set: the groups come in
    strictly ascending order of department, a department has a group
    exactly when it has a row, the value of its group is the sum of its
    revenues, and the group values add up to the total sales. *)
Theorem groups_by_department (df : list sale) (selection : list pystr) :
  StronglySorted (fun a b => pystr_ltb a b = true)
    (List.map fst (department_sales (filtered_df df selection)))
  /\ (forall d,
        dict_get pystr_eqb (department_sales (filtered_df df selection)) d
        = if existsb (fun r => pystr_eqb (department r) d) (filtered_df df selection)
          then Some (sum64 (revenues_of d (filtered_df df selection)))
          else None)
  /\ sum64 (List.map snd (department_sales (filtered_df df selection)))
     = total_sales (filtered_df df selection).
Proof.
  destruct (department_sales_invariant (filtered_df df selection)) as [Hs Hl].
  split; [exact Hs|]. split; [|apply SalesFacts.groups_sum_to_total].
  intros d. rewrite Hl. apply has_rows_iff_revenues.
Qed.

End GroupingFacts.

(** ** Where imported questions come from *)

Module ProvenanceFacts.
Import Importer ImporterSpec OptionTextSpec.

Lemma letter_cases (l : N) :
  is_letter l = true -> l = cp_A \/ l = cp_B \/ l = cp_C \/ l = cp_D.
Proof.
  unfold is_letter, cp_A, cp_B, cp_C, cp_D. intros H.
  apply andb_true_iff in H. destruct H as [H1 H2].
  apply N.leb_le in H1. apply N.leb_le in H2. lia.
Qed.

(** Lines 151-153 write the option of the matched letter and leave the
    title, the bank and the other options as they were. *)
Lemma set_option_effect (q q' : question) (l : N) (t : pystr) (sc : Z) :
  set_option q l t sc = Some q' ->
  q_Bank q' = q_Bank q /\ q_Question q' = q_Question q
  /\ option_of q' l = (t, sc)
  /\ forall l', is_letter l' = true -> l' <> l -> option_of q' l' = option_of q l'.
Proof.
  unfold set_option.
  destruct (N.eqb_spec l cp_A) as [->|HA].
  { intros [= <-]. repeat split.
    intros l' Hl' Hne. destruct (letter_cases l' Hl') as [ -> | [ -> | [ -> | -> ]]];
      [congruence | reflexivity ..]. }
  destruct (N.eqb_spec l cp_B) as [->|HB].
  { intros [= <-]. repeat split.
    intros l' Hl' Hne. destruct (letter_cases l' Hl') as [ -> | [ -> | [ -> | -> ]]];
      [reflexivity | congruence | reflexivity ..]. }
  destruct (N.eqb_spec l cp_C) as [->|HC].
  { intros [= <-]. repeat split.
    intros l' Hl' Hne. destruct (letter_cases l' Hl') as [ -> | [ -> | [ -> | -> ]]];
      [reflexivity | reflexivity | congruence | reflexivity]. }
  destruct (N.eqb_spec l cp_D) as [->|HD]; [|discriminate].
  intros [= <-]. repeat split.
  intros l' Hl' Hne. destruct (letter_cases l' Hl') as [ -> | [ -> | [ -> | -> ]]];
    [reflexivity | reflexivity | reflexivity | congruence].
Qed.

Lemma flush_sourced (all : list paragraph) (bank : pystr) (st : state) :
  Forall (sourced all bank) (questions st) ->
  (forall q, current_question st = Some q -> sourced all bank q) ->
  Forall (sourced all bank) (flush st).
Proof.
  intros Hqs Hcur. unfold flush.
  destruct (current_question st) as [q|]; [|exact Hqs].
  destruct (4 <=? option_count st)%nat; [|exact Hqs].
  apply Forall_app. split; [exact Hqs|]. constructor; [|constructor].
  apply Hcur. reflexivity.
Qed.

(** One iteration keeps every question of the state tied to paragraphs of
    the document. *)
Lemma step_sourced (all : list paragraph) (bank : pystr) (st st' : state)
  (para : paragraph) :
  In para all ->
  Forall (sourced all bank) (questions st) ->
  (forall q, current_question st = Some q -> sourced all bank q) ->
  step bank st para = Ok st' ->
  Forall (sourced all bank) (questions st')
  /\ (forall q, current_question st' = Some q -> sourced all bank q).
Proof.
  intros Hin Hqs Hcur. unfold step.
  destruct (strip (para_text para)) as [|c text] eqn:Htext.
  { intros [= <-]. split; assumption. }
  destruct (is_question (style_name para) (c :: text)) eqn:Hq.
  { intros [= <-]. cbn [questions current_question]. split.
    - apply flush_sourced; assumption.
    - intros q [= <-]. split; [reflexivity|]. split.
      + exists para. split; [exact Hin|]. split; [|exact Htext].
        unfold starts_block. rewrite Htext. exact Hq.
      + intros l Hl. left.
        destruct (letter_cases l Hl) as [ -> | [ -> | [ -> | -> ]]]; reflexivity. }
  destruct (is_option (style_name para) (c :: text)) eqn:Ho.
  2:{ intros [= <-]. split; assumption. }
  destruct (current_question st) as [q|] eqn:Hc.
  2:{ intros [= <-]. split; [exact Hqs|]. rewrite Hc. discriminate. }
  destruct (match_option (c :: text)) as [m|] eqn:Hm.
  2:{ intros [= <-]. split; [exact Hqs|]. rewrite Hc. intros q0 [= <-].
      apply Hcur. reflexivity. }
  destruct (extract_score m) as [score|e] eqn:Hs; cbn [bind]; [|discriminate].
  destruct (set_option q (group1 m) (strip (group2 m)) score) as [q'|] eqn:Hset.
  2:{ intros [= <-]. split; [exact Hqs|]. rewrite Hc. intros q0 [= <-].
      apply Hcur. reflexivity. }
  intros [= <-]. cbn [questions current_question]. split; [exact Hqs|].
  intros q0 [= <-].
  destruct (Hcur q eq_refl) as (Hb & Ht & Hopts).
  destruct (set_option_effect q q' _ _ _ Hset) as (Eb & Et & Eo & Eother).
  split; [congruence|]. split.
  { destruct Ht as (p & Hp & Hsb & Htitle). exists p.
    split; [exact Hp|]. split; [exact Hsb | congruence]. }
  intros l Hl. destruct (N.eq_dec l (group1 m)) as [->|Hne].
  - right. exists para, m, score. split; [exact Hin|]. split.
    { unfold detected_option. rewrite Htext, Hq, Ho, Hm. reflexivity. }
    rewrite Htext. repeat split; assumption.
  - destruct (Hopts l Hl) as [H0|(p & m0 & n & H1 & H2 & H3 & H4 & H5 & H6)].
    + left. rewrite (Eother l Hl Hne). exact H0.
    + right. exists p, m0, n. rewrite (Eother l Hl Hne). repeat split; assumption.
Qed.

Lemma run_sourced (all : list paragraph) (bank : pystr) (paras : list paragraph) :
  (forall para, In para paras -> In para all) ->
  forall st st',
  Forall (sourced all bank) (questions st) ->
  (forall q, current_question st = Some q -> sourced all bank q) ->
  run bank st paras = Ok st' ->
  Forall (sourced all bank) (flush st').
Proof.
  induction paras as [|para rest IH]; intros Hall st st' Hqs Hcur H.
  - injection H as <-. apply flush_sourced; assumption.
  - cbn [run] in H. apply bind_ok_inv in H. destruct H as [st1 [Hstep Hrun]].
    destruct (step_sourced all bank st st1 para (Hall para (or_introl eq_refl))
                Hqs Hcur Hstep) as [Hqs1 Hcur1].
    apply (IH (fun p Hp => Hall p (or_intror Hp)) st1 st' Hqs1 Hcur1 Hrun).
Qed.

(** X6.  The importer invents nothing: an imported question carries the bank
    name given, its title is the trimmed text of a question paragraph of
    the document, and each of its four options is either empty with score
    0 or the trimmed option text and the score of an option paragraph of
    the document with that letter. *)
Theorem imported_question_is_sourced (has_docx : bool) (doc : doc_file)
  (bank : pystr) (q : question) :
  In q (parse_questions_from_doc has_docx doc bank) ->
  exists paras, doc = DocReadable paras /\ sourced paras bank q.
Proof.
  unfold parse_questions_from_doc.
  destruct has_docx; cbn [negb]; [|contradiction].
  destruct doc as [| |paras]; try contradiction.
  unfold parse_paragraphs.
  destruct (run bank initial paras) as [st|e] eqn:Hrun; cbn [bind]; [|contradiction].
  intros Hin. exists paras. split; [reflexivity|].
  assert (H : Forall (sourced paras bank) (flush st)).
  { apply (run_sourced paras bank paras (fun p Hp => Hp) initial st);
      [constructor | discriminate | exact Hrun]. }
  rewrite Forall_forall in H. apply H. exact Hin.
Qed.

Lemma imported_question_is_sourced_witness :
  exists paras,
    DocReadable scored_doc = DocReadable paras /\ sourced paras (u "题库一") first_question.
Proof.
  apply (imported_question_is_sourced true (DocReadable scored_doc) (u "题库一")
           first_question).
  vm_compute. left. reflexivity.
Defined.

End ProvenanceFacts.

(** ** Loading all banks *)

Module LoadAllFacts.
Import Bank BankSpec FrameSpec.

Lemma dict_get_nodup {V} (l : list (pystr * V)) (k : pystr) (v : V) :
  NoDup (List.map fst l) -> In (k, v) l -> dict_get pystr_eqb l k = Some v.
Proof.
  induction l as [|[k' v'] l IH]; [contradiction|].
  cbn [List.map fst dict_get]. intros Hnd Hin. inversion Hnd as [|? ? Hnotin Hnd']; subst.
  destruct Hin as [[= -> ->]|Hin]; [rewrite pystr_eqb_refl; reflexivity|].
  destruct (pystr_eqb_spec k' k) as [->|Hne].
  - exfalso. apply Hnotin. apply (in_map fst) in Hin. exact Hin.
  - apply IH; assumption.
Qed.

Lemma load_sheet_canonical (wb : workbook) (name : pystr) (df : DataFrame) :
  read_excel wb name = Ok df -> canonical_bank df -> load_sheet wb name = Some df.
Proof.
  intros Hread (Hcols & _ & Hrows). unfold load_sheet. rewrite Hread. cbn [bind].
  destruct df as [cols rs]. cbn [columns rows] in Hcols, Hrows. subst cols.
  destruct rs as [|r rs]; [congruence|]. reflexivity.
Qed.

Lemma load_sheets_canonical (all sub : list (pystr * DataFrame)) :
  NoDup (List.map fst all) ->
  Forall (fun s => canonical_bank (snd s)) all ->
  (forall s, In s sub -> In s all) ->
  load_sheets (workbook_of all) (List.map fst sub) = List.map snd sub.
Proof.
  intros Hnd Hall. induction sub as [|[name df] sub IH]; intros Hsub; [reflexivity|].
  cbn [List.map fst snd load_sheets].
  assert (Hin : In (name, df) all) by (apply Hsub; left; reflexivity).
  assert (Hread : read_excel (workbook_of all) name = Ok df).
  { unfold workbook_of, read_excel.
    rewrite (dict_get_nodup
               (List.map (fun s => (fst s, SheetData (snd s))) all) name (SheetData df)).
    - reflexivity.
    - rewrite map_map. cbn [fst]. exact Hnd.
    - apply in_map_iff. exists (name, df). split; [reflexivity | exact Hin]. }
  rewrite Forall_forall in Hall.
  rewrite (load_sheet_canonical _ name df Hread (Hall (name, df) Hin)).
  f_equal. apply IH. intros s Hs. apply Hsub. right. exact Hs.
Qed.

Lemma canonical_cells (cells : list cell) :
  List.length cells = 11%nat ->
  List.map (fun c => row_get canonical_columns cells c CNaN) canonical_columns = cells.
Proof.
  destruct cells as [|c1 [|c2 [|c3 [|c4 [|c5 [|c6 [|c7 [|c8 [|c9 [|c10 [|c11 [|c12 r]]]]]]]]]]]];
    try discriminate.
  intros _. vm_compute. reflexivity.
Qed.

Lemma reindex_canonical (df : DataFrame) :
  canonical_bank df -> reindex canonical_columns df = rows df.
Proof.
  intros (Hcols & Hrect & _). unfold reindex, rectangular in *. rewrite Hcols in *.
  induction (rows df) as [|cells rs IH]; [reflexivity|].
  cbn [forallb] in Hrect. apply andb_true_iff in Hrect. destruct Hrect as [Hc Hrs].
  apply Nat.eqb_eq in Hc. cbn [List.map].
  rewrite (canonical_cells cells Hc), (IH Hrs). reflexivity.
Qed.

Lemma columns_stay_canonical (frames : list DataFrame) :
  Forall canonical_bank frames ->
  fold_left (fun acc df => add_columns acc (columns df)) frames canonical_columns
  = canonical_columns.
Proof.
  induction 1 as [|df frames (Hcols & _) _ IH]; [reflexivity|].
  cbn [fold_left]. rewrite Hcols.
  change (add_columns canonical_columns canonical_columns) with canonical_columns.
  exact IH.
Qed.

Lemma concat_canonical (df : DataFrame) (frames : list DataFrame) :
  Forall canonical_bank (df :: frames) ->
  concat (df :: frames)
  = {| columns := canonical_columns;
       rows := List.concat (List.map rows (df :: frames)) |}.
Proof.
  intros Hall. unfold concat.
  assert (Hcols : fold_left (fun acc d => add_columns acc (columns d)) (df :: frames) []
                  = canonical_columns).
  { inversion Hall as [|? ? (Hc & _) Hrest]; subst. cbn [fold_left]. rewrite Hc.
    change (add_columns [] canonical_columns) with canonical_columns.
    apply columns_stay_canonical. exact Hrest. }
  rewrite Hcols. f_equal. f_equal.
  apply map_ext_in. intros d Hd. rewrite Forall_forall in Hall.
  apply reindex_canonical. apply Hall. exact Hd.
Qed.

(** X10.  Loading without a bank name (or with the empty name) a workbook whose
    sheets are all in the canonical layout gives the rows of all sheets in
    sheet order under the canonical columns; the ids are taken over as
    they are, so they start again in every bank. *)
Theorem load_all_concatenates (sheets : list (pystr * DataFrame)) :
  NoDup (List.map fst sheets) ->
  Forall (fun s => canonical_bank (snd s)) sheets ->
  sheets <> [] ->
  load_questions (workbook_of sheets) None
  = {| columns := canonical_columns;
       rows := List.concat (List.map (fun s => rows (snd s)) sheets) |}
  /\ load_questions (workbook_of sheets) (Some [])
     = load_questions (workbook_of sheets) None
  /\ column_cells (load_questions (workbook_of sheets) None) col_ID
     = List.concat (List.map (fun s => column_cells (snd s) col_ID) sheets).
Proof.
  intros Hnd Hall Hne.
  assert (Hload : load_questions (workbook_of sheets) None
                  = {| columns := canonical_columns;
                       rows := List.concat (List.map (fun s => rows (snd s)) sheets) |}).
  { assert (Hnames : sheet_names (workbook_of sheets) = Ok (List.map fst sheets)).
    { unfold workbook_of, sheet_names. rewrite map_map. reflexivity. }
    unfold load_questions. rewrite Hnames.
    rewrite (load_sheets_canonical sheets sheets Hnd Hall (fun s Hs => Hs)).
    destruct sheets as [|[name df] rest]; [congruence|].
    cbn [List.map snd]. rewrite concat_canonical.
    - rewrite <- (map_map snd rows). reflexivity.
    - rewrite Forall_forall in *. intros d Hd.
      change (In d (List.map snd ((name, df) :: rest))) in Hd.
      apply in_map_iff in Hd. destruct Hd as [s [<- Hs]]. apply Hall. exact Hs. }
  split; [exact Hload|]. split; [reflexivity|].
  rewrite Hload. unfold column_cells. cbn [columns rows].
  clear Hload Hnd Hne. induction Hall as [|s rest (Hcols & _) _ IH]; [reflexivity|].
  cbn [List.map List.concat]. rewrite map_app, IH, Hcols. reflexivity.
Qed.

Lemma load_all_concatenates_witness :
  load_questions (workbook_of two_banks) None
  = {| columns := canonical_columns;
       rows := List.concat (List.map (fun s => rows (snd s)) two_banks) |}
  /\ load_questions (workbook_of two_banks) (Some [])
     = load_questions (workbook_of two_banks) None
  /\ column_cells (load_questions (workbook_of two_banks) None) col_ID
     = List.concat (List.map (fun s => column_cells (snd s) col_ID) two_banks).
Proof.
  apply (load_all_concatenates two_banks).
  - repeat constructor; simpl; intuition discriminate.
  - repeat constructor; discriminate.
  - discriminate.
Defined.

End LoadAllFacts.
